(** * chat-apl: a shallow embedding of the chat client and of its API route

    The repository is a Next.js client: [components/chat] (the message
    stream and the reply dispatcher), [components/sidebar] (the room
    directory), [context/appcontext] (the session state holder) and
    [api/chat/route.ts] (the completion endpoint).  Everything the
    components await (the document store, the HTTP boundary, the
    completion API) is outside of the repository; it is modelled here as a
    world whose answers are scripted, so that every theorem quantifies
    over all the ways the outside can answer. *)

From Stdlib Require Import ZArith NArith List Bool String Ascii Lia.
From Stdlib Require Import DecimalString Sorting.Sorted Sorting.Permutation.
Import ListNotations.

Set Implicit Arguments.
Set Warnings "-register-all".

(** ** JavaScript strings and values *)

Module Js.

(** A JavaScript string is a sequence of UTF-16 code units. *)
Definition jsstring := list N.

(** An ASCII literal of the source, as code units. *)
Fixpoint lit (s : string) : jsstring :=
  match s with
  | EmptyString => []
  | String c r => N_of_ascii c :: lit r
  end.

(** [a === b] on two strings. *)
Fixpoint jseqb (a b : jsstring) : bool :=
  match a, b with
  | [], [] => true
  | x :: a', y :: b' => N.eqb x y && jseqb a' b'
  | _, _ => false
  end.

(** [a === b] where either side may be [null]. *)
Definition strict_eq (a b : option jsstring) : bool :=
  match a, b with
  | None, None => true
  | Some x, Some y => jseqb x y
  | _, _ => false
  end.

(** WhiteSpace and LineTerminator code points of ECMAScript, the ones
    [String.prototype.trim] strips. *)
Definition isWhiteSpace (c : N) : bool :=
  ((9 <=? c) && (c <=? 13) || (c =? 32) || (c =? 160) || (c =? 5760)
   || (8192 <=? c) && (c <=? 8202) || (c =? 8232) || (c =? 8233)
   || (c =? 8239) || (c =? 8287) || (c =? 12288) || (c =? 65279))%N.

Fixpoint trimStart (s : jsstring) : jsstring :=
  match s with
  | [] => []
  | c :: r => if isWhiteSpace c then trimStart r else s
  end.

Definition trimEnd (s : jsstring) : jsstring := rev (trimStart (rev s)).

Definition trim (s : jsstring) : jsstring := trimEnd (trimStart s).

(** Values that cross the JSON boundaries of the program.  No code path
    computes with numbers, so a number keeps an integer payload only. *)
Inductive JsValue :=
| JUndefined
| JNull
| JBool (b : bool)
| JNum (n : Z)
| JStr (s : jsstring)
| JArr (items : list JsValue)
| JObj (props : list (jsstring * JsValue)).

(** What the program can throw or can see thrown at it. *)
Inductive JsError :=
| TypeError
| SyntaxError
| FirebaseError
| OpenAIError
| Error (message : jsstring).

(** [!v] is [negb (truthy v)]. *)
Definition truthy (v : JsValue) : bool :=
  match v with
  | JUndefined | JNull => false
  | JBool b => b
  | JNum n => negb (n =? 0)%Z
  | JStr s => negb (jseqb s [])
  | JArr _ | JObj _ => true
  end.

Definition typeof (v : JsValue) : jsstring :=
  match v with
  | JUndefined => lit "undefined"
  | JNull | JArr _ | JObj _ => lit "object"
  | JBool _ => lit "boolean"
  | JNum _ => lit "number"
  | JStr _ => lit "string"
  end.

(** Truthiness of a [string | null] slot: [null] and [""] are falsy. *)
Definition truthy_str (s : option jsstring) : bool :=
  match s with
  | None => false
  | Some x => negb (jseqb x [])
  end.

(** Truthiness of an [object | null] slot. *)
Definition truthy_obj {A : Type} (o : option A) : bool :=
  match o with
  | None => false
  | Some _ => true
  end.

Fixpoint lookup (k : jsstring) (props : list (jsstring * JsValue)) : JsValue :=
  match props with
  | [] => JUndefined
  | (k', v) :: r => if jseqb k k' then v else lookup k r
  end.

(** [v.k] (and the destructuring [const { k } = v]): reading a property of
    [null] or [undefined] throws; a primitive or an array has no own
    property of the names the program reads. *)
Definition getProperty (v : JsValue) (k : jsstring) : JsError + JsValue :=
  match v with
  | JUndefined | JNull => inl TypeError
  | JObj props => inr (lookup k props)
  | _ => inr JUndefined
  end.

End Js.
Import Js.

(** The fixed strings of the source, as code units. *)
Module Strings.

(** "申し訳ありませんが、AI応答の取得に失敗しました。" (chat, fetchAIResponse) *)
Definition apology : jsstring :=
  [30003; 12375; 35379; 12354; 12426; 12414; 12379; 12435; 12364; 12289; 65;
   73; 24540; 31572; 12398; 21462; 24471; 12395; 22833; 25943; 12375; 12414;
   12375; 12383; 12290]%N.

(** "申し訳ありませんが、応答を生成できませんでした。" (route.ts) *)
Definition fallback : jsstring :=
  [30003; 12375; 35379; 12354; 12426; 12414; 12379; 12435; 12364; 12289;
   24540; 31572; 12434; 29983; 25104; 12391; 12365; 12414; 12379; 12435;
   12391; 12375; 12383; 12290]%N.

(** "メッセージが必要です" (route.ts, status 400) *)
Definition message_required : jsstring :=
  [12513; 12483; 12475; 12540; 12472; 12364; 24517; 35201; 12391; 12377]%N.

(** "AI応答の生成に失敗しました" (route.ts, status 500) *)
Definition generation_failed : jsstring :=
  [65; 73; 24540; 31572; 12398; 29983; 25104; 12395; 22833; 25943; 12375;
   12414; 12375; 12383]%N.

(** "API呼び出しに失敗しました" (chat, thrown on a non-ok response) *)
Definition api_call_failed : jsstring :=
  [65; 80; 73; 21628; 12403; 20986; 12375; 12395; 22833; 25943; 12375; 12414;
   12375; 12383]%N.

(** "同じ名前のチャットルームが既に存在します" (sidebar) *)
Definition duplicate_name : jsstring :=
  [21516; 12376; 21517; 21069; 12398; 12481; 12515; 12483; 12488; 12523;
   12540; 12512; 12364; 26082; 12395; 23384; 22312; 12375; 12414; 12377]%N.

(** "チャットルームの作成に失敗しました" (sidebar) *)
Definition create_failed : jsstring :=
  [12481; 12515; 12483; 12488; 12523; 12540; 12512; 12398; 20316; 25104;
   12395; 22833; 25943; 12375; 12414; 12375; 12383]%N.

(** "チャットルームの削除に失敗しました" (sidebar, alert) *)
Definition delete_failed : jsstring :=
  [12481; 12515; 12483; 12488; 12523; 12540; 12512; 12398; 21066; 38500;
   12395; 22833; 25943; 12375; 12414; 12375; 12383]%N.

End Strings.

(** ** The data model *)

(** A Firestore [Timestamp]; the server assigns it at write time. *)
Definition Timestamp := Z.

Inductive Sender := user_sender | bot_sender.

(** [type Message] of the chat component: one entry of the local view. *)
Module Message.
Record t := mk {
  id : jsstring;
  text : JsValue;
  sender : Sender;
  createdAt : Timestamp
}.
End Message.

(** [type Room] of the sidebar component. *)
Module Room.
Record t := mk {
  id : jsstring;
  name : jsstring;
  createdAt : Timestamp
}.
End Room.

(** [User] of the identity provider; the program reads [uid] only. *)
Record User := { uid : jsstring }.

(** ** The document store

    Collection [rooms] and, below each room document, the collection
    [massages] (the spelling of the source).  A message document keeps the
    identifier of the room it lies under; deleting the room document does
    not touch it. *)
Module Firestore.

Record RoomDoc := {
  room_id : jsstring;
  room_name : jsstring;
  room_createdAt : Timestamp;
  room_createdBy : option jsstring
}.

Record MassageDoc := {
  massage_room : jsstring;
  massage_id : jsstring;
  massage_text : JsValue;
  massage_sender : Sender;
  massage_createdAt : Timestamp
}.

Record t := {
  rooms : list RoomDoc;
  massages : list MassageDoc
}.

(** The identifier the store assigns to its [n]-th document. *)
Definition autoId (n : N) : jsstring :=
  lit ("doc" ++ NilZero.string_of_uint (N.to_uint n)).

(** A code unit the [.] of a pattern without the flag [s] does not
    match: a line terminator. *)
Definition isLineTerminator (c : N) : bool :=
  ((c =? 10) || (c =? 13) || (c =? 8232) || (c =? 8233))%N.

(** [/^__.*__$/.test(k)], the SDK's test of a reserved field name: two
    low lines at either end, which do not overlap, and no line terminator
    between them. *)
Definition reservedName (k : jsstring) : bool :=
  match k with
  | 95%N :: 95%N :: rest =>
      match rev rest with
      | 95%N :: 95%N :: between =>
          forallb (fun c => negb (isLineTerminator c)) between
      | _ => false
      end
  | _ => false
  end.

(** A field name the SDK accepts in a write: not empty and not reserved. *)
Definition validName (k : jsstring) : bool :=
  negb (jseqb k []) && negb (reservedName k).

(** A field value the SDK accepts, with the settings [getFirestore] gives
    by default.  [addDoc] throws, before anything is sent, on [undefined],
    on an array directly inside an array, and on an object, at any depth,
    one of whose field names is empty or reserved.  What only the server
    refuses is left to the script of the world. *)
Fixpoint validField (v : JsValue) : bool :=
  match v with
  | JUndefined => false
  | JArr items =>
      forallb (fun x => match x with JArr _ => false | _ => validField x end) items
  | JObj props => forallb (fun kv => validName (fst kv) && validField (snd kv)) props
  | _ => true
  end.

Section Ordering.
Variable A : Type.
Variable key : A -> Timestamp.
Variable le : Timestamp -> Timestamp -> bool.

Fixpoint insertBy (x : A) (l : list A) : list A :=
  match l with
  | [] => [x]
  | y :: r => if le (key x) (key y) then x :: l else y :: insertBy x r
  end.

(** [orderBy]: the documents of a snapshot, ordered by one timestamp
    field. *)
Fixpoint orderBy (l : list A) : list A :=
  match l with
  | [] => []
  | x :: r => insertBy x (orderBy r)
  end.
End Ordering.

(** [collection(doc(db, "rooms", room), "massages")]. *)
Definition massagesOf (room : jsstring) (db : t) : list MassageDoc :=
  filter (fun m => jseqb (massage_room m) room) (massages db).

(** [query(massagesCollectionRef, orderBy("createdAt", "asc"))]. *)
Definition queryMassagesAsc (room : jsstring) (db : t) : list MassageDoc :=
  orderBy massage_createdAt Z.leb (massagesOf room db).

(** [query(roomsCollectionRef, orderBy("createdAt", "desc"))]. *)
Definition queryRoomsDesc (db : t) : list RoomDoc :=
  orderBy room_createdAt Z.geb (rooms db).

(** [query(roomsCollectionRef, where("name", "==", v))]. *)
Definition queryRoomsWhereName (v : jsstring) (db : t) : list RoomDoc :=
  filter (fun r => jseqb (room_name r) v) (rooms db).

(** [deleteDoc(doc(db, "rooms", roomId))]: the room document only. *)
Definition deleteRoom (roomId : jsstring) (db : t) : t :=
  {| rooms := filter (fun r => negb (jseqb (room_id r) roomId)) (rooms db);
     massages := massages db |}.

End Firestore.

(** ** The outside world *)

(** The live queries the program opens. *)
Inductive Query :=
| MassagesAsc (room : jsstring)
| RoomsDesc.

Record Listener := {
  handle : N;
  target : Query
}.

(** Every request the client sends out, in the order of sending. *)
Inductive Request :=
| AddMassage (room : jsstring) (text : JsValue) (sender : Sender)
| AddRoom (name : jsstring) (createdBy : option jsstring)
| GetRoomsWhereName (name : jsstring)
| DeleteRoom (roomId : jsstring)
| PostApiChat (message : jsstring).

(** What [fetch("/api/chat", ...)] resolves to: the status of the
    response and its body read as JSON ([None]: the body is not JSON). *)
Record Response := {
  status : Z;
  json : option JsValue
}.

Inductive FetchReply :=
| NetworkFailure
| Responds (r : Response).

(** The call sites of [console.log] and [console.error]. *)
Inductive ConsoleLine :=
| LogNotAuthenticated
| LogSelectedRoom (room : jsstring) (name : option jsstring)
| LogMessageCount (n : nat)
| LogNoRoomSelected
| LogRoomClicked (room name : jsstring)
| LogAfterSet
| ErrMessagesRead
| ErrSendMessage (e : JsError)
| ErrAIResponse (e : JsError)
| ErrDelete (e : JsError)
| ErrCreateRoom (e : JsError)
| ErrRoomsRead.

(** The store, its open listeners, and the script of what the outside
    will answer: [faults] holds one flag per call to the document store
    ([true]: the call rejects; past its end calls succeed), [replies] one
    answer per [fetch] (past its end the network fails).  [issued],
    [console] and [alerts] record what the client did, oldest first. *)
Record World := {
  store : Firestore.t;
  listeners : list Listener;
  nextHandle : N;
  nextId : N;
  clock : Timestamp;
  faults : list bool;
  replies : list FetchReply;
  issued : list Request;
  console : list ConsoleLine;
  alerts : list jsstring
}.

(** ** Client state *)

(** [AppContextType] of [context/appcontext]: the session state holder. *)
Record AppContextType := {
  user : option User;
  userid : option jsstring;
  selectedRoom : option jsstring;
  selectedRoomName : option jsstring
}.

(** The [useState] slots of [Chat], and the cleanup its effect returned
    last ([Some h]: [() => unsubscribe()] of listener [h]). *)
Record ChatState := {
  inputMessage : jsstring;
  messages : list Message.t;
  chatCleanup : option N
}.

(** The [useState] slots of [Sidebar], and the cleanup of its effect. *)
Record SidebarState := {
  rooms : list Room.t;
  isModalOpen : bool;
  newRoomName : jsstring;
  errorMessage : jsstring;
  sidebarCleanup : option N
}.

Record App := {
  context : AppContextType;
  chat : ChatState;
  sidebar : SidebarState;
  world : World
}.

(** ** Asynchronous code: state passing with exceptions

    An [async] function of the source is a state transformer that either
    fulfils with a value or throws.  A handler runs to its end before the
    next event is taken: what other events could do between two [await]s
    of one handler is not modelled. *)
Inductive Settled (A : Type) :=
| Fulfilled (a : A)
| Thrown (e : JsError).
Arguments Fulfilled {A} a.
Arguments Thrown {A} e.

(** A computation over a state [S]; [Async] is the client's. *)
Definition Eff (S A : Type) := S -> Settled A * S.

Definition Async (A : Type) := Eff App A.

Definition ret {S A : Type} (a : A) : Eff S A := fun s => (Fulfilled a, s).

Definition throw {S A : Type} (e : JsError) : Eff S A := fun s => (Thrown e, s).

Definition bind {S A B : Type} (m : Eff S A) (k : A -> Eff S B) : Eff S B :=
  fun s =>
    match m s with
    | (Fulfilled a, s') => k a s'
    | (Thrown e, s') => (Thrown e, s')
    end.

(** [try { m } catch (error) { h error }]. *)
Definition tryCatch {S A : Type} (m : Eff S A) (h : JsError -> Eff S A) : Eff S A :=
  fun s =>
    match m s with
    | (Fulfilled a, s') => (Fulfilled a, s')
    | (Thrown e, s') => h e s'
    end.

Definition gets {S A : Type} (f : S -> A) : Eff S A := fun s => (Fulfilled (f s), s).

Definition modify {S : Type} (f : S -> S) : Eff S unit := fun s => (Fulfilled tt, f s).

(** [v.k] inside a computation. *)
Definition prop {S : Type} (v : JsValue) (k : jsstring) : Eff S JsValue :=
  match getProperty v k with
  | inl e => throw e
  | inr x => ret x
  end.

Declare Scope async_scope.
Delimit Scope async_scope with async.
Notation "x <- m ;; k" := (bind m (fun x => k))
  (at level 61, m at next level, right associativity) : async_scope.
Notation "m ;; k" := (bind m (fun _ => k))
  (at level 61, right associativity) : async_scope.
Open Scope async_scope.

(** The state a computation ends in. *)
Definition exec {S A : Type} (m : Eff S A) (s : S) : S := snd (m s).

(** *** State setters *)

Definition withContext (f : AppContextType -> AppContextType) (s : App) : App :=
  {| context := f (context s); chat := chat s; sidebar := sidebar s; world := world s |}.

Definition withChat (f : ChatState -> ChatState) (s : App) : App :=
  {| context := context s; chat := f (chat s); sidebar := sidebar s; world := world s |}.

Definition withSidebar (f : SidebarState -> SidebarState) (s : App) : App :=
  {| context := context s; chat := chat s; sidebar := f (sidebar s); world := world s |}.

Definition withWorld (f : World -> World) (s : App) : App :=
  {| context := context s; chat := chat s; sidebar := sidebar s; world := f (world s) |}.

Definition setUser (u : option User) : Async unit :=
  modify (withContext (fun c =>
    {| user := u; userid := userid c; selectedRoom := selectedRoom c;
       selectedRoomName := selectedRoomName c |})).

Definition setUserid (i : option jsstring) : Async unit :=
  modify (withContext (fun c =>
    {| user := user c; userid := i; selectedRoom := selectedRoom c;
       selectedRoomName := selectedRoomName c |})).

Definition setSelectedRoom (r : option jsstring) : Async unit :=
  modify (withContext (fun c =>
    {| user := user c; userid := userid c; selectedRoom := r;
       selectedRoomName := selectedRoomName c |})).

Definition setSelectedRoomName (n : option jsstring) : Async unit :=
  modify (withContext (fun c =>
    {| user := user c; userid := userid c; selectedRoom := selectedRoom c;
       selectedRoomName := n |})).

Definition setInputMessage (v : jsstring) : Async unit :=
  modify (withChat (fun c =>
    {| inputMessage := v; messages := messages c; chatCleanup := chatCleanup c |})).

Definition setMessages (v : list Message.t) : Async unit :=
  modify (withChat (fun c =>
    {| inputMessage := inputMessage c; messages := v; chatCleanup := chatCleanup c |})).

Definition setChatCleanup (v : option N) : Async unit :=
  modify (withChat (fun c =>
    {| inputMessage := inputMessage c; messages := messages c; chatCleanup := v |})).

Definition setRooms (v : list Room.t) : Async unit :=
  modify (withSidebar (fun c =>
    {| rooms := v; isModalOpen := isModalOpen c; newRoomName := newRoomName c;
       errorMessage := errorMessage c; sidebarCleanup := sidebarCleanup c |})).

Definition setIsModalOpen (v : bool) : Async unit :=
  modify (withSidebar (fun c =>
    {| rooms := rooms c; isModalOpen := v; newRoomName := newRoomName c;
       errorMessage := errorMessage c; sidebarCleanup := sidebarCleanup c |})).

Definition setNewRoomName (v : jsstring) : Async unit :=
  modify (withSidebar (fun c =>
    {| rooms := rooms c; isModalOpen := isModalOpen c; newRoomName := v;
       errorMessage := errorMessage c; sidebarCleanup := sidebarCleanup c |})).

Definition setErrorMessage (v : jsstring) : Async unit :=
  modify (withSidebar (fun c =>
    {| rooms := rooms c; isModalOpen := isModalOpen c; newRoomName := newRoomName c;
       errorMessage := v; sidebarCleanup := sidebarCleanup c |})).

Definition setSidebarCleanup (v : option N) : Async unit :=
  modify (withSidebar (fun c =>
    {| rooms := rooms c; isModalOpen := isModalOpen c; newRoomName := newRoomName c;
       errorMessage := errorMessage c; sidebarCleanup := v |})).

(** ** The boundary calls *)

Definition withStore (f : Firestore.t -> Firestore.t) (w : World) : World :=
  {| store := f (store w); listeners := listeners w; nextHandle := nextHandle w;
     nextId := nextId w; clock := clock w; faults := faults w; replies := replies w;
     issued := issued w; console := console w; alerts := alerts w |}.

Definition withListeners (f : list Listener -> list Listener) (w : World) : World :=
  {| store := store w; listeners := f (listeners w); nextHandle := nextHandle w;
     nextId := nextId w; clock := clock w; faults := faults w; replies := replies w;
     issued := issued w; console := console w; alerts := alerts w |}.

Definition record (r : Request) (w : World) : World :=
  {| store := store w; listeners := listeners w; nextHandle := nextHandle w;
     nextId := nextId w; clock := clock w; faults := faults w; replies := replies w;
     issued := issued w ++ [r]; console := console w; alerts := alerts w |}.

Definition logLine (l : ConsoleLine) (w : World) : World :=
  {| store := store w; listeners := listeners w; nextHandle := nextHandle w;
     nextId := nextId w; clock := clock w; faults := faults w; replies := replies w;
     issued := issued w; console := console w ++ [l]; alerts := alerts w |}.

Definition raiseAlert (m : jsstring) (w : World) : World :=
  {| store := store w; listeners := listeners w; nextHandle := nextHandle w;
     nextId := nextId w; clock := clock w; faults := faults w; replies := replies w;
     issued := issued w; console := console w; alerts := alerts w ++ [m] |}.

(** One round trip to the document store: the server clock advances and
    the next flag of the script is consumed. *)
Definition roundTrip (w : World) : World :=
  {| store := store w; listeners := listeners w; nextHandle := nextHandle w;
     nextId := nextId w; clock := (clock w + 1)%Z; faults := tl (faults w);
     replies := replies w; issued := issued w; console := console w;
     alerts := alerts w |}.

Definition takeReply (w : World) : World :=
  {| store := store w; listeners := listeners w; nextHandle := nextHandle w;
     nextId := nextId w; clock := clock w; faults := faults w;
     replies := tl (replies w); issued := issued w; console := console w;
     alerts := alerts w |}.

Definition freshId (w : World) : World :=
  {| store := store w; listeners := listeners w; nextHandle := nextHandle w;
     nextId := N.succ (nextId w); clock := clock w; faults := faults w;
     replies := replies w; issued := issued w; console := console w;
     alerts := alerts w |}.

Definition freshHandle (w : World) : World :=
  {| store := store w; listeners := listeners w; nextHandle := N.succ (nextHandle w);
     nextId := nextId w; clock := clock w; faults := faults w;
     replies := replies w; issued := issued w; console := console w;
     alerts := alerts w |}.

Definition consoleLog (l : ConsoleLine) : Async unit := modify (withWorld (logLine l)).

Definition consoleError (l : ConsoleLine) : Async unit := modify (withWorld (logLine l)).

Definition alert (m : jsstring) : Async unit := modify (withWorld (raiseAlert m)).

(** A request to the document store: it is sent, and the store accepts or
    rejects it as the script says. *)
Definition storeCall (r : Request) : Async unit :=
  fun s =>
    let rejected := hd false (faults (world s)) in
    let s' := withWorld (fun w => roundTrip (record r w)) s in
    if rejected then (Thrown FirebaseError, s') else (Fulfilled tt, s').

Definition insertMassage (room : jsstring) (text : JsValue) (sender : Sender)
    (w : World) : World :=
  freshId (withStore (fun db =>
    {| Firestore.rooms := Firestore.rooms db;
       Firestore.massages := Firestore.massages db ++
         [ {| Firestore.massage_room := room;
              Firestore.massage_id := Firestore.autoId (nextId w);
              Firestore.massage_text := text;
              Firestore.massage_sender := sender;
              Firestore.massage_createdAt := clock w |} ] |}) w).

Definition insertRoom (name : jsstring) (createdBy : option jsstring)
    (w : World) : World :=
  freshId (withStore (fun db =>
    {| Firestore.rooms := Firestore.rooms db ++
         [ {| Firestore.room_id := Firestore.autoId (nextId w);
              Firestore.room_name := name;
              Firestore.room_createdAt := clock w;
              Firestore.room_createdBy := createdBy |} ];
       Firestore.massages := Firestore.massages db |}) w).

(** [addDoc(massagesCollectionRef, { text, sender, createdAt: serverTimestamp() })]. *)
Definition addDocMassages (room : jsstring) (text : JsValue) (sender : Sender)
    : Async unit :=
  if negb (Firestore.validField text) then throw FirebaseError
  else
    storeCall (AddMassage room text sender) ;;
    modify (withWorld (insertMassage room text sender)).

(** [addDoc(roomsCollectionRef, { name, createdAt: serverTimestamp(), createdBy })]. *)
Definition addDocRooms (name : jsstring) (createdBy : option jsstring) : Async unit :=
  storeCall (AddRoom name createdBy) ;;
  modify (withWorld (insertRoom name createdBy)).

(** [getDocs(query(roomsCollectionRef, where("name", "==", v)))]. *)
Definition getDocs (v : jsstring) : Async (list Firestore.RoomDoc) :=
  storeCall (GetRoomsWhereName v) ;;
  gets (fun s => Firestore.queryRoomsWhereName v (store (world s))).

(** [deleteDoc(doc(db, "rooms", roomId))]. *)
Definition deleteDoc (roomId : jsstring) : Async unit :=
  storeCall (DeleteRoom roomId) ;;
  modify (withWorld (withStore (Firestore.deleteRoom roomId))).

(** [fetch("/api/chat", { method: "POST", body: JSON.stringify({ message }) })]. *)
Definition fetch (message : jsstring) : Async Response :=
  fun s =>
    let s' := withWorld (fun w => takeReply (record (PostApiChat message) w)) s in
    match replies (world s) with
    | Responds r :: _ => (Fulfilled r, s')
    | _ => (Thrown TypeError, s')
    end.

(** [response.ok]. *)
Definition ok (r : Response) : bool := ((200 <=? status r) && (status r <=? 299))%Z.

(** [response.json()]. *)
Definition responseJson (r : Response) : Async JsValue :=
  match json r with
  | Some v => ret v
  | None => throw SyntaxError
  end.

(** [onSnapshot(q, next, error)]: registers a listener and returns the
    handle its [unsubscribe] closes. *)
Definition onSnapshot (q : Query) : Async N :=
  fun s =>
    let h := nextHandle (world s) in
    (Fulfilled h,
     withWorld (fun w =>
       freshHandle (withListeners (fun l => l ++ [ {| handle := h; target := q |} ]) w)) s).

Definition unsubscribe (h : N) : Async unit :=
  modify (withWorld (withListeners (filter (fun l => negb (handle l =? h)%N)))).

(** [x!] on a [string | null] the guard has found non-null. *)
Definition nonNull (o : option jsstring) : jsstring :=
  match o with
  | Some x => x
  | None => []
  end.

(** ** components/chat *)

Module Chat.

(** The [next] callback of the message listener: the view is rebuilt from
    the documents of the snapshot. *)
Definition onNext (docs : list Firestore.MassageDoc) : Async unit :=
  consoleLog (LogMessageCount (List.length docs)) ;;
  let newMessages :=
    map (fun doc =>
           Message.mk (Firestore.massage_id doc) (Firestore.massage_text doc)
                      (Firestore.massage_sender doc) (Firestore.massage_createdAt doc))
        docs in
  setMessages newMessages.

(** The [error] callback of the message listener. *)
Definition onError : Async unit := consoleError ErrMessagesRead.

(** The body of [useEffect(..., [selectedRoom, user, userid])]; its value
    is the cleanup it returns. *)
Definition effect : Async (option N) :=
  c <- gets context ;;
  if negb (truthy_obj (user c)) || negb (truthy_str (userid c)) then
    consoleLog LogNotAuthenticated ;;
    setMessages [] ;;
    ret None
  else if truthy_str (selectedRoom c) then
    let room := nonNull (selectedRoom c) in
    consoleLog (LogSelectedRoom room (selectedRoomName c)) ;;
    h <- onSnapshot (MassagesAsc room) ;;
    ret (Some h)
  else
    consoleLog LogNoRoomSelected ;;
    setMessages [] ;;
    ret None.

Definition fetchAIResponse (userMessage : jsstring) : Async unit :=
  c <- gets context ;;
  let room := nonNull (selectedRoom c) in
  tryCatch
    (response <- fetch userMessage ;;
     (if negb (ok response) then throw (Error Strings.api_call_failed) else ret tt) ;;
     data <- responseJson response ;;
     reply <- prop data (lit "response") ;;
     addDocMassages room reply bot_sender)
    (fun error =>
       consoleError (ErrAIResponse error) ;;
       addDocMassages room (JStr Strings.apology) bot_sender).

(** The guard of [sendMessage]. *)
Definition refuses (s : App) : bool :=
  negb (truthy_obj (user (context s))) || negb (truthy_str (userid (context s)))
  || negb (truthy_str (selectedRoom (context s)))
  || jseqb (trim (inputMessage (chat s))) [].

(** The [try] block of [sendMessage] with its [catch]: what a send does
    once the input is reset. *)
Definition deliver (userMessageText : jsstring) : Async unit :=
  c <- gets context ;;
  let room := nonNull (selectedRoom c) in
  tryCatch
    (addDocMassages room (JStr userMessageText) user_sender ;;
     fetchAIResponse userMessageText)
    (fun error => consoleError (ErrSendMessage error)).

Definition sendMessage : Async unit :=
  s <- gets (fun s => s) ;;
  if refuses s then ret tt
  else
    let userMessageText := inputMessage (chat s) in
    setInputMessage [] ;;
    deliver userMessageText.

(** [onChange] of the input field. *)
Definition onChange (value : jsstring) : Async unit := setInputMessage value.

End Chat.

(** ** components/sidebar *)

Module Sidebar.

(** The [next] callback of the room listener. *)
Definition onNext (docs : list Firestore.RoomDoc) : Async unit :=
  let newRooms :=
    map (fun doc =>
           Room.mk (Firestore.room_id doc) (Firestore.room_name doc)
                   (Firestore.room_createdAt doc))
        docs in
  setRooms newRooms.

Definition onError : Async unit := consoleError ErrRoomsRead.

(** The body of [useEffect(..., [user, userid])]. *)
Definition effect : Async (option N) :=
  c <- gets context ;;
  if negb (truthy_obj (user c)) || negb (truthy_str (userid c)) then ret None
  else
    h <- onSnapshot RoomsDesc ;;
    ret (Some h).

(** [confirmed] is the user's answer to the [confirm] dialog;
    [e.stopPropagation()] changes no state and is left out. *)
Definition handleDeleteRoom (roomId : jsstring) (confirmed : bool) : Async unit :=
  if negb confirmed then ret tt
  else
    tryCatch
      (deleteDoc roomId ;;
       c <- gets context ;;
       if strict_eq (selectedRoom c) (Some roomId) then
         setSelectedRoom None ;;
         setSelectedRoomName None
       else ret tt)
      (fun error =>
         consoleError (ErrDelete error) ;;
         alert Strings.delete_failed).

Definition handleCreateRoom : Async unit :=
  s <- gets (fun s => s) ;;
  let newRoomName := newRoomName (sidebar s) in
  if jseqb (trim newRoomName) [] then ret tt
  else
    tryCatch
      (querySnapshot <- getDocs (trim newRoomName) ;;
       if negb (List.length querySnapshot =? 0)%nat then
         setErrorMessage Strings.duplicate_name
       else
         addDocRooms newRoomName (userid (context s)) ;;
         setNewRoomName [] ;;
         setErrorMessage [] ;;
         setIsModalOpen false)
      (fun error =>
         consoleError (ErrCreateRoom error) ;;
         setErrorMessage Strings.create_failed).

(** [onClick] of a room of the list. *)
Definition selectRoom (room : Room.t) : Async unit :=
  consoleLog (LogRoomClicked (Room.id room) (Room.name room)) ;;
  setSelectedRoom (Some (Room.id room)) ;;
  setSelectedRoomName (Some (Room.name room)) ;;
  consoleLog LogAfterSet.

(** The "new chat" button, the field of the dialog and its cancel button. *)
Definition openModal : Async unit := setIsModalOpen true.

Definition onChange (value : jsstring) : Async unit := setNewRoomName value.

Definition cancel : Async unit :=
  setIsModalOpen false ;;
  setNewRoomName [] ;;
  setErrorMessage [].

End Sidebar.

(** ** context/appcontext *)

Module AppProvider.

(** The callback given to [onAuthStateChanged]. *)
Definition onAuthStateChanged (newUser : option User) : Async unit :=
  setUser newUser ;;
  setUserid (match newUser with Some u => Some (uid u) | None => None end).

End AppProvider.

(** ** Rendering: which effects React runs again

    After a handler has run, React renders again and, for each effect one
    of whose dependencies changed, runs the cleanup the effect returned
    last and then its body.  Dependencies are compared as [Object.is]
    does; two [User] objects are taken to be the same object when their
    [uid]s agree. *)
Module React.

Definition sameUser (a b : option User) : bool :=
  match a, b with
  | None, None => true
  | Some x, Some y => jseqb (uid x) (uid y)
  | _, _ => false
  end.

(** [[selectedRoom, user, userid]] of the chat effect. *)
Definition chatDepsChanged (before after : AppContextType) : bool :=
  negb (strict_eq (selectedRoom before) (selectedRoom after)
        && sameUser (user before) (user after)
        && strict_eq (userid before) (userid after)).

(** [[user, userid]] of the sidebar effect. *)
Definition sidebarDepsChanged (before after : AppContextType) : bool :=
  negb (sameUser (user before) (user after)
        && strict_eq (userid before) (userid after)).

Definition runCleanup (c : option N) : Async unit :=
  match c with
  | Some h => unsubscribe h
  | None => ret tt
  end.

Definition when (b : bool) (m : Async unit) : Async unit :=
  if b then m else ret tt.

(** The commit after a render whose context was [before]: cleanups of the
    effects to run again, then their bodies, sidebar before chat as the
    page lays them out. *)
Definition commit (before : AppContextType) : Async unit :=
  after <- gets context ;;
  let sidebarAgain := sidebarDepsChanged before after in
  let chatAgain := chatDepsChanged before after in
  when sidebarAgain (c <- gets (fun s => sidebarCleanup (sidebar s)) ;; runCleanup c) ;;
  when chatAgain (c <- gets (fun s => chatCleanup (chat s)) ;; runCleanup c) ;;
  when sidebarAgain (c <- Sidebar.effect ;; setSidebarCleanup c) ;;
  when chatAgain (c <- Chat.effect ;; setChatCleanup c).

(** The first commit: both effects run, nothing to clean up. *)
Definition mountEffects : Async unit :=
  c <- Sidebar.effect ;;
  setSidebarCleanup c ;;
  c <- Chat.effect ;;
  setChatCleanup c.

End React.

(** ** The event loop *)

(** What can happen to the mounted page: the identity provider reports,
    the user acts, a listener of the store is served. *)
Inductive Event :=
| AuthStateChanged (newUser : option User)
| RoomClicked (index : nat)
| DeleteClicked (index : nat) (confirmed : bool)
| NewChatClicked
| RoomNameTyped (value : jsstring)
| CancelClicked
| CreateClicked
| InputTyped (value : jsstring)
| SendClicked
| SnapshotArrives (h : N)
| SnapshotFails (h : N).

Definition listenerOf (h : N) (s : App) : option Listener :=
  find (fun l => (handle l =? h)%N) (listeners (world s)).

(** The store serves listener [h]: the whole result of its query. *)
Definition serve (h : N) : Async unit :=
  s <- gets (fun s => s) ;;
  match listenerOf h s with
  | None => ret tt
  | Some l =>
      match target l with
      | MassagesAsc room => Chat.onNext (Firestore.queryMassagesAsc room (store (world s)))
      | RoomsDesc => Sidebar.onNext (Firestore.queryRoomsDesc (store (world s)))
      end
  end.

Definition serveError (h : N) : Async unit :=
  s <- gets (fun s => s) ;;
  match listenerOf h s with
  | None => ret tt
  | Some l =>
      match target l with
      | MassagesAsc _ => Chat.onError
      | RoomsDesc => Sidebar.onError
      end
  end.

Definition handler (e : Event) : Async unit :=
  match e with
  | AuthStateChanged newUser => AppProvider.onAuthStateChanged newUser
  | RoomClicked i =>
      s <- gets (fun s => s) ;;
      match nth_error (rooms (sidebar s)) i with
      | Some room => Sidebar.selectRoom room
      | None => ret tt
      end
  | DeleteClicked i confirmed =>
      s <- gets (fun s => s) ;;
      match nth_error (rooms (sidebar s)) i with
      | Some room => Sidebar.handleDeleteRoom (Room.id room) confirmed
      | None => ret tt
      end
  | NewChatClicked => Sidebar.openModal
  | RoomNameTyped value => Sidebar.onChange value
  | CancelClicked => Sidebar.cancel
  | CreateClicked => Sidebar.handleCreateRoom
  | InputTyped value => Chat.onChange value
  | SendClicked => Chat.sendMessage
  | SnapshotArrives h => serve h
  | SnapshotFails h => serveError h
  end.

(** One turn of the loop: the handler, then the commit of the render it
    causes. *)
Definition react (e : Event) (s : App) : App :=
  exec (React.commit (context s)) (exec (handler e) s).

Definition run (es : list Event) (s : App) : App := fold_left (fun s e => react e s) es s.

(** A world that has not been used yet. *)
Definition newWorld (faults : list bool) (replies : list FetchReply) : World :=
  {| store := {| Firestore.rooms := []; Firestore.massages := [] |};
     listeners := []; nextHandle := 0%N; nextId := 0%N; clock := 0%Z;
     faults := faults; replies := replies; issued := []; console := [];
     alerts := [] |}.

(** The page as it mounts: the initial values of every [useState]. *)
Definition initial (w : World) : App :=
  {| context := {| user := None; userid := None; selectedRoom := None;
                   selectedRoomName := None |};
     chat := {| inputMessage := []; messages := []; chatCleanup := None |};
     sidebar := {| rooms := []; isModalOpen := false; newRoomName := [];
                   errorMessage := []; sidebarCleanup := None |};
     world := w |}.

Definition mount (w : World) : App := exec React.mountEffects (initial w).

(** ** api/chat/route.ts *)

Module Route.

(** The completion the upstream API returns, as far as the route reads it. *)
Record ChatCompletionMessage := { content : option jsstring }.

Record Choice := { message : option ChatCompletionMessage }.

(** The server side: the API key of the environment, what the upstream
    call will do ([None]: it rejects), and the records of what the route
    sent upstream and wrote to the console. *)
Record Server := {
  apiKey : option jsstring;
  upstream : option (list Choice);
  sent : list JsValue;
  errors : list JsError
}.

(** [NextRequest]: its body read as JSON ([None]: the body is not JSON). *)
Record NextRequest := { body : option JsValue }.

Record NextResponse := {
  status : Z;
  payload : JsValue
}.

(** [NextResponse.json(payload, { status })]; the status is 200 when no
    init is given. *)
Definition respond (payload : JsValue) (init : option Z) : NextResponse :=
  {| status := match init with Some c => c | None => 200%Z end;
     payload := payload |}.

(** [req.json()]. *)
Definition reqJson (req : NextRequest) : Eff Server JsValue :=
  match body req with
  | Some v => ret v
  | None => throw SyntaxError
  end.

(** [new OpenAI({ apiKey: process.env.OPENAI_API_KEY })]: the constructor
    throws when there is no key. *)
Definition newOpenAI : Eff Server unit :=
  k <- gets apiKey ;;
  match k with
  | Some _ => ret tt
  | None => throw OpenAIError
  end.

(** [openai.chat.completions.create({ model, messages: [{ role: "user",
    content }] })]. *)
Definition create (content : JsValue) : Eff Server (list Choice) :=
  modify (fun s => {| apiKey := apiKey s; upstream := upstream s;
                      sent := sent s ++ [content]; errors := errors s |}) ;;
  u <- gets upstream ;;
  match u with
  | Some choices => ret choices
  | None => throw OpenAIError
  end.

Definition consoleError (e : JsError) : Eff Server unit :=
  modify (fun s => {| apiKey := apiKey s; upstream := upstream s;
                      sent := sent s; errors := errors s ++ [e] |}).

(** [response.choices[0].message?.content || fallback]. *)
Definition firstContent (choices : list Choice) : Eff Server jsstring :=
  match choices with
  | [] => throw TypeError
  | c :: _ =>
      match message c with
      | Some {| content := Some t |} =>
          if truthy (JStr t) then ret t else ret Strings.fallback
      | _ => ret Strings.fallback
      end
  end.

Definition POST (req : NextRequest) : Eff Server NextResponse :=
  tryCatch
    (json <- reqJson req ;;
     message <- prop json (lit "message") ;;
     if negb (truthy message) || negb (jseqb (typeof message) (lit "string")) then
       ret (respond (JObj [(lit "error", JStr Strings.message_required)]) (Some 400%Z))
     else
       newOpenAI ;;
       choices <- create message ;;
       aiResponse <- firstContent choices ;;
       ret (respond (JObj [(lit "response", JStr aiResponse)]) None))
    (fun error =>
       consoleError error ;;
       ret (respond (JObj [(lit "error", JStr Strings.generation_failed)]) (Some 500%Z))).

End Route.

(** ** Vocabulary of the statements *)

(** The message stream is subscribed to [room] through listener [h]: the
    state the chat effect leaves when it ran with an identity and a
    selected room. *)
Definition Subscribed (s : App) (h : N) (room : jsstring) : Prop :=
  chatCleanup (chat s) = Some h
  /\ listenerOf h s = Some {| handle := h; target := MassagesAsc room |}
  /\ truthy_obj (user (context s)) = true
  /\ truthy_str (userid (context s)) = true
  /\ selectedRoom (context s) = Some room.

(** The room directory is subscribed through listener [h]. *)
Definition Listing (s : App) (h : N) : Prop :=
  sidebarCleanup (sidebar s) = Some h
  /\ listenerOf h s = Some {| handle := h; target := RoomsDesc |}
  /\ truthy_obj (user (context s)) = true
  /\ truthy_str (userid (context s)) = true.

(** No listener with handle [h] is open. *)
Definition Closed (s : App) (h : N) : Prop :=
  forall l, In l (listeners (world s)) -> handle l <> h.

(** The view entry of a stored message. *)
Definition viewOf (doc : Firestore.MassageDoc) : Message.t :=
  Message.mk (Firestore.massage_id doc) (Firestore.massage_text doc)
             (Firestore.massage_sender doc) (Firestore.massage_createdAt doc).

(** The ways steps 3 and 4 of a send can fail once the human message is
    stored, read off the script of the world; [k] counts the calls to the
    store that precede the write of the apology. *)
Inductive CompletionFails (w : World) : nat -> Prop :=
| NetworkError :
    (forall r rest, replies w <> Responds r :: rest) ->
    CompletionFails w 1
| NonSuccess r rest :
    replies w = Responds r :: rest -> ok r = false ->
    CompletionFails w 1
| NotJson r rest :
    replies w = Responds r :: rest -> ok r = true -> json r = None ->
    CompletionFails w 1
| NullPayload r rest v :
    replies w = Responds r :: rest -> ok r = true -> json r = Some v ->
    getProperty v (lit "response") = inl TypeError ->
    CompletionFails w 1
| UnusableReply r rest v x :
    replies w = Responds r :: rest -> ok r = true -> json r = Some v ->
    getProperty v (lit "response") = inr x -> Firestore.validField x = false ->
    CompletionFails w 1
| ReplyRejected r rest v x :
    replies w = Responds r :: rest -> ok r = true -> json r = Some v ->
    getProperty v (lit "response") = inr x -> Firestore.validField x = true ->
    nth 1 (faults w) false = true ->
    CompletionFails w 2.

(** The document a send stores for the human message, and the document
    stored for the assistant when [k] calls to the store came before its
    write: identifier and timestamp are the ones the store assigns. *)
Definition humanDoc (room text : jsstring) (w : World) : Firestore.MassageDoc :=
  {| Firestore.massage_room := room;
     Firestore.massage_id := Firestore.autoId (nextId w);
     Firestore.massage_text := JStr text;
     Firestore.massage_sender := user_sender;
     Firestore.massage_createdAt := (clock w + 1)%Z |}.

Definition botDoc (room : jsstring) (text : JsValue) (w : World) (k : nat)
    : Firestore.MassageDoc :=
  {| Firestore.massage_room := room;
     Firestore.massage_id := Firestore.autoId (N.succ (nextId w));
     Firestore.massage_text := text;
     Firestore.massage_sender := bot_sender;
     Firestore.massage_createdAt := (clock w + 1 + Z.of_nat k)%Z |}.

(** The view is in non-decreasing order of creation timestamps. *)
Definition viewSorted (s : App) : Prop :=
  StronglySorted (fun a b => (Message.createdAt a <= Message.createdAt b)%Z)
    (messages (chat s)).

(** ** Sessions used as examples *)

Module Example.

Definition alice : User := {| uid := lit "u1" |}.

(** The endpoint answers 200 with [{ response: t }]. *)
Definition serviceSays (t : jsstring) : FetchReply :=
  Responds {| status := 200; json := Some (JObj [(lit "response", JStr t)]) |}.

(** The endpoint answers 500 with its error body. *)
Definition serviceDown : FetchReply :=
  Responds {| status := 500;
              json := Some (JObj [(lit "error", JStr Strings.generation_failed)]) |}.

(** Alice signs in, creates the room [name] and sees it listed. *)
Definition roomCreated (name : jsstring) (w : World) : App :=
  run [AuthStateChanged (Some alice); NewChatClicked; RoomNameTyped name;
       CreateClicked; SnapshotArrives 0] (mount w).

(** She then selects the room and types [text]: the two calls to the
    store that created the room have used the first two flags of the
    script. *)
Definition composing (text : jsstring) (w : World) : App :=
  run [RoomClicked 0; InputTyped text] (roomCreated (lit "Demo") w).

(** She has sent "hello" and the endpoint has answered "hi"; the
    snapshot of the two messages has not been served yet. *)
Definition answered : App :=
  run [SendClicked]
      (composing (lit "hello") (newWorld [] [serviceSays (lit "hi")])).

(** Alice has created the room " Demo " (with a blank on either side),
    sees it listed, opens the dialog again and types the same name. *)
Definition paddedAgain : App :=
  run [NewChatClicked; RoomNameTyped (lit " Demo ")]
      (roomCreated (lit " Demo ") (newWorld [] [])).

(** The store will reject the write of the human message. *)
Definition humanRejected : App :=
  composing (lit "hello") (newWorld [false; false; true] []).

(** The store accepts every write and the endpoint answers 500. *)
Definition completionDown : App :=
  composing (lit "hello") (newWorld [] [serviceDown]).

(** Three blanks are typed in a selected room. *)
Definition blankTyped : App := composing (lit "   ") (newWorld [] []).

(** Nobody is signed in and "hello" is typed. *)
Definition anonymousTyped : App :=
  run [InputTyped (lit "hello")] (mount (newWorld [] [])).

(** The room "Demo" is selected; the store will answer the next call as
    [flag] says. *)
Definition selected (flag : bool) : App :=
  run [RoomClicked 0] (roomCreated (lit "Demo") (newWorld [false; false; flag] [])).

(** Alice has created "Demo", opens the dialog again and types "Demo". *)
Definition demoAgain : App :=
  run [NewChatClicked; RoomNameTyped (lit "Demo")]
      (roomCreated (lit "Demo") (newWorld [] [])).

End Example.

(** Two documents are in the order [le] of their timestamps. *)
Definition inOrder {A : Type} (key : A -> Timestamp)
    (le : Timestamp -> Timestamp -> bool) (x y : A) : Prop :=
  le (key x) (key y) = true.

(** ** Vocabulary of the further statements *)

(** The listener a cleanup holds, if it holds one. *)
Definition held (c : option N) (q : Query) : list Listener :=
  match c with
  | Some h => [ {| handle := h; target := q |} ]
  | None => []
  end.

(** An identity is present: both slots the effects test are truthy. *)
Definition identified (c : AppContextType) : bool :=
  truthy_obj (user c) && truthy_str (userid c).

Definition holds (c : option N) : bool :=
  match c with
  | Some _ => true
  | None => false
  end.

(** The two effects are in step with the context [c]: the open listeners
    are the one of the directory, held exactly when an identity is
    present, followed by the one of the message stream, held exactly when
    moreover a room is selected, and aimed at that room; handles are
    distinct and below the next one; without a stream listener the view
    is empty. *)
Definition InStep (c : AppContextType) (s : App) : Prop :=
  listeners (world s)
  = held (sidebarCleanup (sidebar s)) RoomsDesc
    ++ held (chatCleanup (chat s)) (MassagesAsc (nonNull (selectedRoom c)))
  /\ holds (sidebarCleanup (sidebar s)) = identified c
  /\ holds (chatCleanup (chat s)) = identified c && truthy_str (selectedRoom c)
  /\ (forall h, sidebarCleanup (sidebar s) = Some h -> (h < nextHandle (world s))%N)
  /\ (forall h, chatCleanup (chat s) = Some h -> (h < nextHandle (world s))%N)
  /\ (forall h h', sidebarCleanup (sidebar s) = Some h -> chatCleanup (chat s) = Some h' ->
                   h <> h')
  /\ (chatCleanup (chat s) = None -> messages (chat s) = []).

(** The view entry of a stored room. *)
Definition roomOf (doc : Firestore.RoomDoc) : Room.t :=
  Room.mk (Firestore.room_id doc) (Firestore.room_name doc) (Firestore.room_createdAt doc).

(** Two states hold the same subscriptions and show the same view. *)
Definition SameSubscriptions (s s' : App) : Prop :=
  sidebarCleanup (sidebar s') = sidebarCleanup (sidebar s)
  /\ chatCleanup (chat s') = chatCleanup (chat s)
  /\ messages (chat s') = messages (chat s)
  /\ listeners (world s') = listeners (world s)
  /\ nextHandle (world s') = nextHandle (world s).

(** ** The client and the endpoint together *)

(** The request [fetchAIResponse] sends: [JSON.stringify({ message })]
    as [req.json()] reads it back. *)
Definition requestOf (message : jsstring) : Route.NextRequest :=
  {| Route.body := Some (JObj [(lit "message", JStr message)]) |}.

(** What [fetch] resolves to when the route has answered. *)
Definition replyOf (resp : Route.NextResponse) : FetchReply :=
  Responds {| status := Route.status resp; json := Some (Route.payload resp) |}.

(** The endpoint, run on the server [sv], as the client sees it. *)
Definition endpoint (sv : Route.Server) (message : jsstring) : FetchReply :=
  match fst (Route.POST (requestOf message) sv) with
  | Fulfilled resp => replyOf resp
  | Thrown _ => NetworkFailure
  end.

(** ** The email pattern of the credential forms

    [/^[A-Z0-9._%+-]+@[A-Z0-9.-]+\.[A-Z]{2,}$/i], the [pattern] rule of
    both forms.  The pattern is anchored at both ends and has no
    multiline flag, so a string passes when the whole of it is in the
    language of the expression. *)
Module Pattern.

Inductive Regex :=
| Never
| Empty
| Class (p : N -> bool)
| Seq (a b : Regex)
| Alt (a b : Regex)
| Star (a : Regex).

(** [a+] and [a{2,}]. *)
Definition Plus (a : Regex) : Regex := Seq a (Star a).

Definition AtLeast2 (a : Regex) : Regex := Seq a (Seq a (Star a)).

Fixpoint nullable (r : Regex) : bool :=
  match r with
  | Never => false
  | Empty => true
  | Class _ => false
  | Seq a b => nullable a && nullable b
  | Alt a b => nullable a || nullable b
  | Star _ => true
  end.

(** The derivative of [r] by the code unit [c]. *)
Fixpoint deriv (c : N) (r : Regex) : Regex :=
  match r with
  | Never | Empty => Never
  | Class p => if p c then Empty else Never
  | Seq a b =>
      if nullable a then Alt (Seq (deriv c a) b) (deriv c b) else Seq (deriv c a) b
  | Alt a b => Alt (deriv c a) (deriv c b)
  | Star a => Seq (deriv c a) (Star a)
  end.

(** [r.test(s)] for an anchored [r]. *)
Fixpoint test (r : Regex) (s : jsstring) : bool :=
  match s with
  | [] => nullable r
  | c :: s' => test (deriv c r) s'
  end.

(** The classes of the pattern under the flag [i]: without the flag [u]
    a code unit above 127 is never folded onto an ASCII letter, so [A-Z]
    stands for the 52 ASCII letters. *)
Definition letter (c : N) : bool :=
  ((65 <=? c) && (c <=? 90) || (97 <=? c) && (c <=? 122))%N.

Definition digit (c : N) : bool := ((48 <=? c) && (c <=? 57))%N.

(** [[A-Z0-9._%+-]]. *)
Definition localClass (c : N) : bool :=
  (letter c || digit c || (c =? 46) || (c =? 95) || (c =? 37) || (c =? 43) || (c =? 45))%N.

(** [[A-Z0-9.-]]. *)
Definition domainClass (c : N) : bool :=
  (letter c || digit c || (c =? 46) || (c =? 45))%N.

Definition only (k : N) (c : N) : bool := (c =? k)%N.

Definition email : Regex :=
  Seq (Plus (Class localClass))
    (Seq (Class (only 64))
       (Seq (Plus (Class domainClass))
          (Seq (Class (only 46)) (AtLeast2 (Class letter))))).

End Pattern.

(** ** The credential forms: auth/login and auth/register *)

Module AuthForm.

(** How the identity provider settles a call: it resolves, or rejects
    with an error whose [code] is read. *)
Inductive Answer :=
| Resolves
| Rejects (code : JsValue).

(** The state of a form page: its [error] slot, the routes pushed on the
    router, the credentials sent to the provider, and the script of the
    provider's answers (past its end it resolves). *)
Record t := {
  error : jsstring;
  pushed : list jsstring;
  asked : list (jsstring * jsstring);
  answers : list Answer
}.

Definition setError (v : jsstring) : Eff t unit :=
  modify (fun s => {| error := v; pushed := pushed s; asked := asked s;
                      answers := answers s |}).

(** [router.push(path)]. *)
Definition routerPush (path : jsstring) : Eff t unit :=
  modify (fun s => {| error := error s; pushed := pushed s ++ [path];
                      asked := asked s; answers := answers s |}).

(** [signInWithEmailAndPassword] and [createUserWithEmailAndPassword]:
    the call goes out and settles as the script says. *)
Definition call (email password : jsstring) : Eff t Answer :=
  fun s =>
    (Fulfilled (hd Resolves (answers s)),
     {| error := error s; pushed := pushed s;
        asked := asked s ++ [(email, password)]; answers := tl (answers s) |}).

(** [err.code === k]. *)
Definition codeIs (code : JsValue) (k : string) : bool :=
  match code with
  | JStr c => jseqb c (lit k)
  | _ => false
  end.

(** The rule [required] and the rule [minLength] of the form library, on
    a text field. *)
Definition required (v : jsstring) : bool := negb (jseqb v []).

Definition minLength (n : nat) (v : jsstring) : bool := (n <=? List.length v)%nat.

(** "有効なメールアドレスを入力してください" *)
Definition invalid_email : jsstring :=
  [26377; 21177; 12394; 12513; 12540; 12523; 12450; 12489; 12524; 12473;
   12434; 20837; 21147; 12375; 12390; 12367; 12384; 12373; 12356]%N.

End AuthForm.

Module Login.
Import AuthForm.

Record LoginFormData := {
  email : jsstring;
  password : jsstring
}.

(** "メールアドレスまたはパスワードが正しくありません" *)
Definition bad_credentials : jsstring :=
  [12513; 12540; 12523; 12450; 12489; 12524; 12473; 12414; 12383; 12399;
   12497; 12473; 12527; 12540; 12489; 12364; 27491; 12375; 12367; 12354;
   12426; 12414; 12379; 12435]%N.

(** "ログインに失敗しました。もう一度お試しください" *)
Definition login_failed : jsstring :=
  [12525; 12464; 12452; 12531; 12395; 22833; 25943; 12375; 12414; 12375;
   12383; 12290; 12418; 12358; 19968; 24230; 12362; 35430; 12375; 12367;
   12384; 12373; 12356]%N.

(** The [try] of [onSubmit] holds the call and the push; its [catch]
    reads [err.code]. *)
Definition onSubmit (data : LoginFormData) : Eff AuthForm.t unit :=
  setError [] ;;
  answer <- call (email data) (password data) ;;
  match answer with
  | Resolves => routerPush (lit "/")
  | Rejects code =>
      if codeIs code "auth/user-not-found" || codeIs code "auth/wrong-password" then
        setError bad_credentials
      else if codeIs code "auth/invalid-email" then setError invalid_email
      else if codeIs code "auth/invalid-credential" then setError bad_credentials
      else setError login_failed
  end.

(** The rules registered on the two fields. *)
Definition valid (data : LoginFormData) : bool :=
  required (email data) && Pattern.test Pattern.email (email data)
  && required (password data) && minLength 6 (password data).

(** [handleSubmit(onSubmit)]: the form library calls [onSubmit] when
    every rule passes, and not otherwise. *)
Definition submit (data : LoginFormData) : Eff AuthForm.t unit :=
  if valid data then onSubmit data else ret tt.

(** The callback given to [onAuthStateChanged]. *)
Definition onAuthStateChanged (u : option User) : Eff AuthForm.t unit :=
  if truthy_obj u then routerPush (lit "/") else ret tt.

End Login.

Module Register.
Import AuthForm.

Record RegisterFormData := {
  email : jsstring;
  password : jsstring;
  confirmPassword : jsstring
}.

(** "このメールアドレスは既に使用されています" *)
Definition email_in_use : jsstring :=
  [12371; 12398; 12513; 12540; 12523; 12450; 12489; 12524; 12473; 12399;
   26082; 12395; 20351; 29992; 12373; 12428; 12390; 12356; 12414; 12377]%N.

(** "パスワードは6文字以上で入力してください" *)
Definition weak_password : jsstring :=
  [12497; 12473; 12527; 12540; 12489; 12399; 54; 25991; 23383; 20197; 19978;
   12391; 20837; 21147; 12375; 12390; 12367; 12384; 12373; 12356]%N.

(** "登録に失敗しました。もう一度お試しください" *)
Definition register_failed : jsstring :=
  [30331; 37682; 12395; 22833; 25943; 12375; 12414; 12375; 12383; 12290;
   12418; 12358; 19968; 24230; 12362; 35430; 12375; 12367; 12384; 12373;
   12356]%N.

Definition onSubmit (data : RegisterFormData) : Eff AuthForm.t unit :=
  setError [] ;;
  answer <- call (email data) (password data) ;;
  match answer with
  | Resolves => routerPush (lit "/")
  | Rejects code =>
      if codeIs code "auth/email-already-in-use" then setError email_in_use
      else if codeIs code "auth/weak-password" then setError weak_password
      else if codeIs code "auth/invalid-email" then setError invalid_email
      else setError register_failed
  end.

(** The rules registered on the three fields; [validate] compares the
    confirmation with the watched password. *)
Definition valid (data : RegisterFormData) : bool :=
  required (email data) && Pattern.test Pattern.email (email data)
  && required (password data) && minLength 6 (password data)
  && required (confirmPassword data)
  && jseqb (confirmPassword data) (password data).

Definition submit (data : RegisterFormData) : Eff AuthForm.t unit :=
  if valid data then onSubmit data else ret tt.

Definition onAuthStateChanged (u : option User) : Eff AuthForm.t unit :=
  if truthy_obj u then routerPush (lit "/") else ret tt.

End Register.

(** ** app/page.tsx: the guard in front of the chat page *)

Module Home.

Record t := {
  loading : bool;
  authenticated : bool;
  pushed : list jsstring
}.

(** The initial values of the two [useState] slots. *)
Definition initial : t := {| loading := true; authenticated := false; pushed := [] |}.

(** The callback given to [onAuthStateChanged]. *)
Definition onAuthStateChanged (u : option User) (s : t) : t :=
  if truthy_obj u then
    {| loading := false; authenticated := true; pushed := pushed s |}
  else
    {| loading := loading s; authenticated := authenticated s;
       pushed := pushed s ++ [lit "/auth/login"] |}.

(** What the component returns. *)
Inductive Rendered :=
| LoadingScreen
| Nothing
| ChatPage.

Definition render (s : t) : Rendered :=
  if loading s then LoadingScreen
  else if negb (authenticated s) then Nothing
  else ChatPage.

(** The page after the provider has reported [reports], oldest first. *)
Definition after (reports : list (option User)) : t :=
  fold_left (fun s u => onAuthStateChanged u s) reports initial.

End Home.

(** The language of an expression. *)
Inductive Matches : Pattern.Regex -> jsstring -> Prop :=
| MEmpty : Matches Pattern.Empty []
| MClass p c : p c = true -> Matches (Pattern.Class p) [c]
| MSeq a b s t : Matches a s -> Matches b t -> Matches (Pattern.Seq a b) (s ++ t)
| MAltL a b s : Matches a s -> Matches (Pattern.Alt a b) s
| MAltR a b s : Matches b s -> Matches (Pattern.Alt a b) s
| MStarNil a : Matches (Pattern.Star a) []
| MStarCons a s t :
    Matches a s -> Matches (Pattern.Star a) t -> Matches (Pattern.Star a) (s ++ t).

(** A string an address pattern lets through: a local part, [@], a
    domain, a dot and a final label. *)
Definition AddressShape (s : jsstring) : Prop :=
  exists l d t,
    s = l ++ [64%N] ++ d ++ [46%N] ++ t
    /\ l <> [] /\ forallb Pattern.localClass l = true
    /\ d <> [] /\ forallb Pattern.domainClass d = true
    /\ (2 <= List.length t)%nat /\ forallb Pattern.letter t = true.

(** ** More sessions used as examples *)

Module Session.

(** Alice is signed in, the dialog is open and holds [name]; the store
    will answer as [flags] say. *)
Definition naming (name : jsstring) (flags : list bool) : App :=
  run [AuthStateChanged (Some Example.alice); NewChatClicked; RoomNameTyped name]
      (mount (newWorld flags [])).

(** The events that lead to two listed rooms, "A" and "B", the first of
    the list being selected. *)
Definition twoRooms : list Event :=
  [AuthStateChanged (Some Example.alice);
   NewChatClicked; RoomNameTyped (lit "A"); CreateClicked;
   NewChatClicked; RoomNameTyped (lit "B"); CreateClicked;
   SnapshotArrives 0; RoomClicked 0].

(** A server with a key whose completion API returns one choice. *)
Definition server (content : option jsstring) : Route.Server :=
  {| Route.apiKey := Some (lit "key");
     Route.upstream :=
       Some [ {| Route.message := Some {| Route.content := content |} |} ];
     Route.sent := []; Route.errors := [] |}.

(** "hello" is typed in the selected room "Demo" and the endpoint is the
    route run on [server (Some "hi")]. *)
Definition throughRoute : App :=
  Example.composing (lit "hello")
    (newWorld [] [endpoint (server (Some (lit "hi"))) (lit "hello")]).


End Session.

(** ** Proof automation *)

Ltac unfold_async :=
  unfold react, run, exec, handler, serve, serveError, React.commit, React.when,
    React.runCleanup, React.mountEffects, Chat.effect, Sidebar.effect,
    Chat.onNext, Chat.onError, Sidebar.onNext, Sidebar.onError,
    AppProvider.onAuthStateChanged, consoleLog, consoleError, alert, onSnapshot,
    unsubscribe, setUser, setUserid, setSelectedRoom, setSelectedRoomName,
    setInputMessage, setMessages, setChatCleanup, setRooms, setIsModalOpen,
    setNewRoomName, setErrorMessage, setSidebarCleanup,
    bind, tryCatch, gets, modify, ret, throw in *.

Ltac open_state s :=
  destruct s as [[?u ?i ?r ?rn] [?inp ?msgs ?cc] [?rs ?mo ?nn ?em ?sc] ?w];
  cbn [context chat sidebar world user userid selectedRoom selectedRoomName
       inputMessage messages chatCleanup rooms isModalOpen newRoomName
       errorMessage sidebarCleanup] in *.

Ltac open_world w :=
  destruct w as [?db ?ls ?nh ?ni ?ck ?fs ?rp ?iss ?cs ?al];
  cbn [store listeners nextHandle nextId clock faults replies issued console alerts] in *.

Ltac unfold_send :=
  unfold Chat.deliver, Chat.fetchAIResponse, addDocMassages, storeCall, fetch,
    responseJson, prop, consoleError, setInputMessage, exec, tryCatch, bind, gets,
    modify, ret, throw.

Ltac split_step :=
  match goal with
  | |- context [hd false ?fs] => is_var fs; destruct fs as [|[|] ?]
  | |- context [match ?rp with [] => _ | _ :: _ => _ end] =>
      is_var rp; destruct rp as [|[|?] ?]
  | |- context [ok ?r] => destruct (ok r) eqn:?
  | |- context [json ?r] => destruct (json r) eqn:?
  | |- context [getProperty ?v ?k] => destruct (getProperty v k) eqn:?
  | |- context [Firestore.validField ?x] => destruct (Firestore.validField x) eqn:?
  end.

Ltac split_cases := repeat (cbn; split_step).

Ltac use_facts :=
  repeat (match goal with
          | H : ?x = _ |- context [?x] => rewrite H
          end; cbn).

Arguments trim : simpl never.

Ltac unfold_sidebar :=
  unfold Sidebar.handleDeleteRoom, Sidebar.handleCreateRoom, deleteDoc, getDocs,
    addDocRooms, storeCall, consoleError, alert, setSelectedRoom,
    setSelectedRoomName, setNewRoomName, setErrorMessage, setIsModalOpen, exec,
    tryCatch, bind, gets, modify, ret, throw.

Ltac unfold_route :=
  unfold Route.POST, Route.reqJson, Route.newOpenAI, Route.create,
    Route.firstContent, Route.consoleError, Route.respond, prop, tryCatch, bind,
    gets, modify, ret, throw.

(** ** Properties *)

(** *** Strings *)

Lemma jseqb_refl (a : jsstring) : jseqb a a = true.
Proof.
  induction a as [|x a IH]; simpl; [reflexivity|].
  now rewrite N.eqb_refl, IH.
Qed.

Lemma jseqb_eq (a b : jsstring) : jseqb a b = true <-> a = b.
Proof.
  split.
  - revert b; induction a as [|x a IH]; intros [|y b] H; simpl in H;
      try discriminate; [reflexivity|].
    apply andb_true_iff in H as [Hx Hr].
    apply N.eqb_eq in Hx. apply IH in Hr. now subst.
  - intros ->. apply jseqb_refl.
Qed.

Lemma strict_eq_refl (a : option jsstring) : strict_eq a a = true.
Proof. destruct a; simpl; [apply jseqb_refl|reflexivity]. Qed.

Lemma strict_eq_eq (a b : option jsstring) : strict_eq a b = true <-> a = b.
Proof.
  destruct a as [x|], b as [y|]; simpl; split; intros H;
    try discriminate; try reflexivity.
  - apply jseqb_eq in H. now subst.
  - injection H as ->. apply jseqb_refl.
Qed.

Lemma sameUser_refl (u : option User) : React.sameUser u u = true.
Proof. destruct u; simpl; [apply jseqb_refl|reflexivity]. Qed.

(** *** Ordering of a snapshot *)

Section OrderingFacts.
Variable A : Type.
Variable key : A -> Timestamp.
Variable le : Timestamp -> Timestamp -> bool.
Hypothesis le_total : forall a b, le a b = false -> le b a = true.

Lemma insertBy_perm (x : A) (l : list A) :
  Permutation (x :: l) (Firestore.insertBy key le x l).
Proof.
  induction l as [|y r IH]; simpl; [apply Permutation_refl|].
  destruct (le (key x) (key y)); [apply Permutation_refl|].
  eapply perm_trans; [apply perm_swap|]. now apply perm_skip.
Qed.

Lemma orderBy_perm (l : list A) : Permutation l (Firestore.orderBy key le l).
Proof.
  induction l as [|x r IH]; simpl; [apply perm_nil|].
  eapply perm_trans; [apply perm_skip, IH|]. apply insertBy_perm.
Qed.

Lemma orderBy_length (l : list A) :
  List.length (Firestore.orderBy key le l) = List.length l.
Proof. symmetry. apply Permutation_length, orderBy_perm. Qed.

Lemma insertBy_hd (x a : A) (l : list A) :
  inOrder key le a x -> HdRel (inOrder key le) a l ->
  HdRel (inOrder key le) a (Firestore.insertBy key le x l).
Proof.
  intros Hax Hl. destruct l as [|y r]; simpl; [now constructor|].
  destruct (le (key x) (key y)); constructor; [assumption|].
  now inversion Hl.
Qed.

Lemma insertBy_sorted (x : A) (l : list A) :
  Sorted (inOrder key le) l -> Sorted (inOrder key le) (Firestore.insertBy key le x l).
Proof.
  induction 1 as [|y r Hr IH Hy]; simpl.
  - repeat constructor.
  - destruct (le (key x) (key y)) eqn:E.
    + constructor; [now constructor|]. now constructor.
    + constructor; [assumption|].
      apply insertBy_hd; [|assumption]. now apply le_total.
Qed.

Lemma orderBy_sorted (l : list A) :
  Sorted (inOrder key le) (Firestore.orderBy key le l).
Proof.
  induction l as [|x r IH]; simpl; [constructor|]. now apply insertBy_sorted.
Qed.

End OrderingFacts.

Lemma queryMassagesAsc_sorted (room : jsstring) (db : Firestore.t) :
  StronglySorted (fun a b => (Firestore.massage_createdAt a <= Firestore.massage_createdAt b)%Z)
    (Firestore.queryMassagesAsc room db).
Proof.
  apply Sorted_StronglySorted.
  - intros a b c Hab Hbc. lia.
  - unfold Firestore.queryMassagesAsc.
    eapply Sorted_ind with
      (R := fun x y => Z.leb (Firestore.massage_createdAt x) (Firestore.massage_createdAt y) = true).
    + constructor.
    + intros a l _ IH Hd. constructor; [assumption|].
      destruct Hd as [|b l' Hb]; constructor. now apply Z.leb_le.
    + apply orderBy_sorted. intros a b H. apply Z.leb_gt in H. apply Z.leb_le. lia.
Qed.

(** *** Rendering *)

(** A render that leaves the context as it was runs no effect again. *)
Lemma commit_unchanged (s : App) :
  React.commit (context s) s = (Fulfilled tt, s).
Proof.
  unfold React.commit, React.chatDepsChanged, React.sidebarDepsChanged,
    bind, gets, React.when, ret.
  now rewrite !strict_eq_refl, sameUser_refl.
Qed.

Lemma filter_closes (h : N) (ls : list Listener) (l : Listener) :
  In l (filter (fun l => negb (handle l =? h)%N) ls) -> handle l <> h.
Proof.
  intros Hin Heq. apply filter_In in Hin as [_ Hne].
  rewrite Heq, N.eqb_refl in Hne. discriminate.
Qed.

(** *** The message stream *)

Lemma viewOf_sorted (docs : list Firestore.MassageDoc) :
  StronglySorted
    (fun a b => (Firestore.massage_createdAt a <= Firestore.massage_createdAt b)%Z) docs ->
  StronglySorted (fun a b => (Message.createdAt a <= Message.createdAt b)%Z)
    (map viewOf docs).
Proof.
  induction 1 as [|d ds _ IH Hd]; simpl; constructor; [assumption|].
  rewrite Forall_map. exact Hd.
Qed.



(** *** Loss of identity *)

(** C8. When the provider reports that the identity is gone while the
    message stream is subscribed, the render that follows runs the
    cleanup of the chat effect, which closes the listener, and then the
    effect body, which finds no identity and empties the local view. *)
Theorem sign_out_closes_stream (s : App) (h : N) (room : jsstring) :
  Subscribed s h room ->
  let s' := react (AuthStateChanged None) s in
  user (context s') = None
  /\ Closed s' h
  /\ chatCleanup (chat s') = None
  /\ messages (chat s') = [].
Proof.
  intros (Hc & _ & Hu & _ & _). open_state s. subst cc.
  destruct u as [u|]; [clear Hu|discriminate].
  unfold react, exec, handler, AppProvider.onAuthStateChanged, React.commit,
    React.chatDepsChanged, React.sidebarDepsChanged, Closed.
  destruct sc as [h'|]; cbn; rewrite ?andb_false_r; cbn;
    repeat split; intros l Hin; now apply filter_closes in Hin.
Qed.

(** C10. When the provider reports that the identity is gone while the
    room directory is subscribed, the render that follows closes the
    listener of the directory through the cleanup of its effect, and the
    effect body returns at once: the list of rooms keeps the contents of
    the last snapshot, whereas the view of the message stream is emptied. *)
Theorem sign_out_keeps_room_list (s : App) (h : N) :
  Listing s h ->
  let s' := react (AuthStateChanged None) s in
  Closed s' h
  /\ sidebarCleanup (sidebar s') = None
  /\ rooms (sidebar s') = rooms (sidebar s)
  /\ messages (chat s') = [].
Proof.
  intros (Hc & _ & Hu & _). open_state s. subst sc.
  destruct u as [u|]; [clear Hu|discriminate].
  unfold react, exec, handler, AppProvider.onAuthStateChanged, React.commit,
    React.chatDepsChanged, React.sidebarDepsChanged, Closed.
  destruct cc as [h'|]; cbn; rewrite ?andb_false_r; cbn;
    repeat split; intros l Hin.
  - apply filter_In in Hin as [Hin _]. now apply filter_closes in Hin.
  - now apply filter_closes in Hin.
Qed.

(** *** The reply dispatcher *)

Lemma sendMessage_refused (s : App) :
  Chat.refuses s = true -> Chat.sendMessage s = (Fulfilled tt, s).
Proof.
  intros H. unfold Chat.sendMessage, bind, gets. cbv beta iota. now rewrite H.
Qed.

Lemma sendMessage_passes (s : App) :
  Chat.refuses s = false ->
  Chat.sendMessage s
  = Chat.deliver (inputMessage (chat s)) (exec (setInputMessage []) s).
Proof.
  intros H. unfold Chat.sendMessage, bind, gets. cbv beta iota. now rewrite H.
Qed.

(** The guard, clause by clause. *)
Lemma refuses_iff (s : App) :
  Chat.refuses s = true <->
  user (context s) = None
  \/ truthy_str (userid (context s)) = false
  \/ truthy_str (selectedRoom (context s)) = false
  \/ trim (inputMessage (chat s)) = [].
Proof.
  unfold Chat.refuses. rewrite !orb_true_iff, !negb_true_iff, jseqb_eq.
  destruct (user (context s)); simpl; intuition congruence.
Qed.

(** C3, as the code has it.  When there is no identity, no selected
    conversation, or the text is empty once trimmed, a send changes
    nothing at all: no request goes out, nothing is persisted, and the
    input field keeps the text it held (so it stays empty when it was
    empty, and keeps its blanks when it held blanks). *)
Theorem sendMessage_refused_changes_nothing (s : App) :
  user (context s) = None
  \/ truthy_str (userid (context s)) = false
  \/ truthy_str (selectedRoom (context s)) = false
  \/ trim (inputMessage (chat s)) = [] ->
  Chat.sendMessage s = (Fulfilled tt, s) /\ react SendClicked s = s.
Proof.
  intros H. apply refuses_iff in H. apply sendMessage_refused in H.
  split; [exact H|].
  unfold react, handler, exec. rewrite H. simpl. now rewrite commit_unchanged.
Qed.

(** Whatever the outside answers, the [try]/[catch] of a send settles
    without throwing. *)
Lemma deliver_settles (text : jsstring) (s : App) :
  fst (Chat.deliver text s) = Fulfilled tt.
Proof.
  open_state s. open_world w. unfold_send. split_cases; reflexivity.
Qed.

(** It touches the world only. *)
Lemma deliver_frame (text : jsstring) (s : App) :
  let s' := exec (Chat.deliver text) s in
  context s' = context s /\ chat s' = chat s /\ sidebar s' = sidebar s.
Proof.
  open_state s. open_world w. unfold_send. split_cases; repeat split.
Qed.


Lemma deliver_human_rejected (text : jsstring) (s : App) :
  hd false (faults (world s)) = true ->
  let s' := exec (Chat.deliver text) s in
  store (world s') = store (world s)
  /\ issued (world s')
     = issued (world s)
       ++ [AddMassage (nonNull (selectedRoom (context s))) (JStr text) user_sender].
Proof.
  open_state s. open_world w. intros Hf.
  destruct fs as [|[|] fs]; try discriminate.
  unfold_send. cbn. split; reflexivity.
Qed.

Lemma deliver_completion_fails (text : jsstring) (s : App) (k : nat) :
  hd false (faults (world s)) = false ->
  CompletionFails (world s) k ->
  let w := world s in
  let room := nonNull (selectedRoom (context s)) in
  let s' := exec (Chat.deliver text) s in
  let log := Firestore.massages (store (world s')) in
  let old := Firestore.massages (store w) in
  (exists attempt,
     issued (world s')
     = issued w ++ [AddMassage room (JStr text) user_sender; PostApiChat text]
         ++ attempt ++ [AddMassage room (JStr Strings.apology) bot_sender])
  /\ (nth k (faults w) false = false ->
      log = old ++ [humanDoc room text w; botDoc room (JStr Strings.apology) w k])
  /\ (nth k (faults w) false = true -> log = old ++ [humanDoc room text w]).
Proof.
  open_state s. open_world w. intros Hf Hcf.
  unfold humanDoc, botDoc.
  inversion Hcf as [Hn|r0 rest H1 H2|r0 rest H1 H2 H3|r0 rest v H1 H2 H3 H4
                    |r0 rest v x H1 H2 H3 H4 H5|r0 rest v x H1 H2 H3 H4 H5 H6];
    cbn in *; subst.
  1: destruct rp as [|[|r0] rest]; [| |now exfalso; eapply Hn].
  all: destruct fs as [|[|] [|[|] [|[|] fs]]]; try discriminate; cbn in *.
  all: unfold_send; cbn; use_facts.
  all: repeat split; try discriminate; try congruence.
  all: try (intros _; rewrite <- ?app_assoc; cbn; reflexivity).
  all: try (intros _; rewrite <- ?app_assoc; cbn;
            replace (ck + 1 + 1 + 1)%Z with (ck + 1 + 2)%Z by lia; reflexivity).
  all: try (exists []; cbn; rewrite <- ?app_assoc; reflexivity).
  all: try (eexists [_]; cbn; rewrite <- ?app_assoc; reflexivity).
Qed.

(** The scenario of the specification: the store accepts both writes and
    the endpoint answers with a usable reply; the log gains the human
    message and then the reply of the service. *)
Lemma deliver_completion_succeeds (text : jsstring) (s : App)
    (r : Response) (rest : list FetchReply) (v x : JsValue) :
  hd false (faults (world s)) = false ->
  nth 1 (faults (world s)) false = false ->
  replies (world s) = Responds r :: rest ->
  ok r = true -> json r = Some v ->
  getProperty v (lit "response") = inr x -> Firestore.validField x = true ->
  let w := world s in
  let room := nonNull (selectedRoom (context s)) in
  let s' := exec (Chat.deliver text) s in
  Firestore.massages (store (world s'))
  = Firestore.massages (store w) ++ [humanDoc room text w; botDoc room x w 1]
  /\ issued (world s')
     = issued w ++ [AddMassage room (JStr text) user_sender; PostApiChat text;
                    AddMassage room x bot_sender].
Proof.
  open_state s. open_world w. intros Hf0 Hf1 Hr Hok Hj Hp Hv. subst rp.
  unfold humanDoc, botDoc.
  destruct fs as [|[|] [|[|] fs]]; try discriminate; cbn in *.
  all: unfold_send; cbn; use_facts.
  all: rewrite <- ?app_assoc; cbn; split; reflexivity.
Qed.


(** C2, as the code has it.  A send that passes the guard never throws
    at its caller.  When the store rejects the write of the human
    message, the error is logged and that is all: nothing is appended and
    the completion endpoint is not called.  When the human message is
    stored and the completion fails (the network fails, the response is
    not a success, its body is not JSON or is [null], it carries no
    usable [response], or the store rejects the write of the reply), the
    next and last request is the write of the apology as an assistant
    message; the log ends with it when the store accepts that write, and
    holds the human message alone when the store rejects it. *)
Theorem sendMessage_failure_modes (s : App) :
  Chat.refuses s = false ->
  let w := world s in
  let room := nonNull (selectedRoom (context s)) in
  let text := inputMessage (chat s) in
  let s' := exec Chat.sendMessage s in
  let log := Firestore.massages (store (world s')) in
  let old := Firestore.massages (store w) in
  fst (Chat.sendMessage s) = Fulfilled tt
  /\ (hd false (faults w) = true ->
      store (world s') = store w
      /\ issued (world s') = issued w ++ [AddMassage room (JStr text) user_sender])
  /\ (forall k, hd false (faults w) = false -> CompletionFails w k ->
      (exists attempt,
         issued (world s')
         = issued w ++ [AddMassage room (JStr text) user_sender; PostApiChat text]
             ++ attempt ++ [AddMassage room (JStr Strings.apology) bot_sender])
      /\ (nth k (faults w) false = false ->
          log = old ++ [humanDoc room text w; botDoc room (JStr Strings.apology) w k])
      /\ (nth k (faults w) false = true -> log = old ++ [humanDoc room text w])).
Proof.
  intros Hg w room text s' log old. subst log s'. unfold exec.
  rewrite (sendMessage_passes s Hg). fold text.
  set (s0 := exec (setInputMessage []) s).
  split; [apply deliver_settles|]. split.
  - intros Hf. exact (deliver_human_rejected text s0 Hf).
  - intros k Hf Hcf. exact (deliver_completion_fails text s0 Hf Hcf).
Qed.

(** *** The room directory *)

(** C5. A delete the user has confirmed and the store has accepted
    removes the room document; it empties both slots of the selection
    when the deleted room is the selected one, and leaves the context as
    it was when another room, or none, is selected. *)
Theorem delete_clears_selection_of_deleted_room (s : App) (roomId : jsstring) :
  hd false (faults (world s)) = false ->
  let s' := exec (Sidebar.handleDeleteRoom roomId true) s in
  fst (Sidebar.handleDeleteRoom roomId true s) = Fulfilled tt
  /\ store (world s') = Firestore.deleteRoom roomId (store (world s))
  /\ (selectedRoom (context s) = Some roomId ->
      selectedRoom (context s') = None /\ selectedRoomName (context s') = None)
  /\ (selectedRoom (context s) <> Some roomId -> context s' = context s).
Proof.
  open_state s. open_world w. intros Hf.
  destruct fs as [|[|] fs]; try discriminate.
  all: unfold_sidebar; cbn.
  all: destruct (strict_eq r (Some roomId)) eqn:E; cbn; repeat split; intros;
    try reflexivity.
  all: try (subst r; rewrite strict_eq_refl in E; discriminate).
  all: apply strict_eq_eq in E; contradiction.
Qed.

(** C9. When the store rejects the delete, the handler catches the
    error, logs it and raises the alert; the selection, like the rest of
    the context and the store, is as it was before: the two slots are
    written only after [deleteDoc] has fulfilled. *)
Theorem delete_failure_keeps_selection (s : App) (roomId : jsstring) :
  hd false (faults (world s)) = true ->
  let s' := exec (Sidebar.handleDeleteRoom roomId true) s in
  fst (Sidebar.handleDeleteRoom roomId true s) = Fulfilled tt
  /\ selectedRoom (context s') = selectedRoom (context s)
  /\ selectedRoomName (context s') = selectedRoomName (context s)
  /\ context s' = context s
  /\ store (world s') = store (world s)
  /\ issued (world s') = issued (world s) ++ [DeleteRoom roomId]
  /\ alerts (world s') = alerts (world s) ++ [Strings.delete_failed].
Proof.
  open_state s. open_world w. intros Hf.
  destruct fs as [|[|] fs]; try discriminate.
  unfold_sidebar. cbn. repeat split.
Qed.

(** What the pre-check of a create asks the store: the trimmed name.  When
    no room bears the trimmed name and the store accepts both calls, the
    room is written under the name as typed. *)
Lemma create_writes_untrimmed_name (s : App) :
  let name := newRoomName (sidebar s) in
  let w := world s in
  trim name <> [] ->
  hd false (faults w) = false ->
  nth 1 (faults w) false = false ->
  Firestore.queryRoomsWhereName (trim name) (store w) = [] ->
  let s' := exec Sidebar.handleCreateRoom s in
  Firestore.rooms (store (world s'))
  = Firestore.rooms (store w)
    ++ [ {| Firestore.room_id := Firestore.autoId (nextId w);
            Firestore.room_name := name;
            Firestore.room_createdAt := (clock w + 2)%Z;
            Firestore.room_createdBy := userid (context s) |} ]
  /\ issued (world s')
     = issued w ++ [GetRoomsWhereName (trim name); AddRoom name (userid (context s))]
  /\ errorMessage (sidebar s') = [].
Proof.
  open_state s. open_world w. intros Ht Hf0 Hf1 Hq.
  assert (E : jseqb (trim nn) [] = false).
  { destruct (jseqb (trim nn) []) eqn:E; [|reflexivity].
    apply jseqb_eq in E. contradiction. }
  destruct fs as [|[|] [|[|] fs]]; try discriminate.
  all: unfold_sidebar; cbn; rewrite E; cbn; rewrite Hq; cbn.
  all: rewrite <- ?app_assoc; cbn.
  all: replace (ck + 1 + 1)%Z with (ck + 2)%Z by lia; repeat split.
Qed.

(** When a room bears the trimmed name and the store answers the
    pre-check, the create writes nothing and shows the duplicate-name
    message. *)
Lemma create_rejects_known_trimmed_name (s : App) (d : Firestore.RoomDoc) :
  let name := newRoomName (sidebar s) in
  let w := world s in
  trim name <> [] ->
  hd false (faults w) = false ->
  In d (Firestore.rooms (store w)) ->
  Firestore.room_name d = trim name ->
  let s' := exec Sidebar.handleCreateRoom s in
  store (world s') = store w
  /\ issued (world s') = issued w ++ [GetRoomsWhereName (trim name)]
  /\ errorMessage (sidebar s') = Strings.duplicate_name.
Proof.
  open_state s. open_world w. intros Ht Hf0 Hin Hn.
  assert (E : jseqb (trim nn) [] = false).
  { destruct (jseqb (trim nn) []) eqn:E; [|reflexivity].
    apply jseqb_eq in E. contradiction. }
  assert (Hq : exists d' ds, Firestore.queryRoomsWhereName (trim nn) db = d' :: ds).
  { unfold Firestore.queryRoomsWhereName.
    destruct (filter _ (Firestore.rooms db)) as [|d' ds] eqn:F; [|now exists d', ds].
    assert (Hd : In d (filter (fun r => jseqb (Firestore.room_name r) (trim nn))
                         (Firestore.rooms db))).
    { apply filter_In. split; [assumption|]. rewrite Hn. apply jseqb_refl. }
    rewrite F in Hd. destruct Hd. }
  destruct Hq as (d' & ds & Hq).
  destruct fs as [|[|] fs]; try discriminate.
  all: unfold_sidebar; cbn; rewrite E; cbn; rewrite Hq; cbn; repeat split.
Qed.

(** *** The completion endpoint *)

(** C7. The endpoint always answers, and in one of three ways.  It
    answers 200 with [{ response: text }] exactly when the body is JSON
    whose [message] is a non-empty string, a client could be built, and
    the completion API returned at least one choice; the message went
    upstream as the sole content, and [text] is the content of the first
    choice, or the fixed fallback string when that choice has no message,
    no content, or an empty content.  Every other request is answered
    with a status outside 2xx: 400 when [message] is missing, empty or not
    a string, 500 when anything threw. *)
Theorem POST_answers (req : Route.NextRequest) (sv : Route.Server) :
  exists resp,
    fst (Route.POST req sv) = Fulfilled resp
    /\ ((Route.status resp = 200%Z
         /\ exists v m key c rest text,
              Route.body req = Some v
              /\ getProperty v (lit "message") = inr (JStr m) /\ m <> []
              /\ Route.apiKey sv = Some key
              /\ Route.upstream sv = Some (c :: rest)
              /\ Route.sent (snd (Route.POST req sv)) = Route.sent sv ++ [JStr m]
              /\ Route.payload resp = JObj [(lit "response", JStr text)]
              /\ ((Route.message c = Some {| Route.content := Some text |} /\ text <> [])
                  \/ ((Route.message c = None
                       \/ Route.message c = Some {| Route.content := None |}
                       \/ Route.message c = Some {| Route.content := Some [] |})
                      /\ text = Strings.fallback)))
        \/ (Route.status resp = 400%Z
            /\ Route.payload resp = JObj [(lit "error", JStr Strings.message_required)]
            /\ Route.sent (snd (Route.POST req sv)) = Route.sent sv
            /\ exists v x,
                 Route.body req = Some v
                 /\ getProperty v (lit "message") = inr x
                 /\ ((forall m, x <> JStr m) \/ x = JStr []))
        \/ (Route.status resp = 500%Z
            /\ Route.payload resp = JObj [(lit "error", JStr Strings.generation_failed)]
            /\ (Route.body req = None
                \/ (exists v, Route.body req = Some v
                              /\ getProperty v (lit "message") = inl TypeError)
                \/ Route.apiKey sv = None
                \/ Route.upstream sv = None
                \/ Route.upstream sv = Some []))).
Proof.
  destruct req as [[v|]], sv as [key up snt errs]; unfold_route; cbn.
  2: { eexists; split; [reflexivity|]. right; right. cbn. auto. }
  destruct (getProperty v _) as [e|x] eqn:Hp; cbn.
  { eexists; split; [reflexivity|]. right; right. cbn. repeat split.
    right; left. exists v. split; [reflexivity|].
    destruct v; cbn in Hp; try discriminate; now inversion Hp. }
  destruct x as [| |b|n|m|items|props].
  1-4, 6-7: cbn; rewrite ?orb_true_r; cbn;
    eexists; split; [reflexivity|]; right; left; cbn; repeat split;
    eexists v, _; repeat split; [exact Hp|left; intros m; discriminate].
  destruct m as [|c0 m].
  { cbn. eexists; split; [reflexivity|]. right; left. cbn. repeat split.
    eexists v, _; repeat split; [exact Hp|now right]. }
  cbn [truthy typeof jseqb lit negb orb N.eqb andb]. cbn.
  destruct key as [key|]; cbn.
  2: { eexists; split; [reflexivity|]. right; right. cbn. auto 6. }
  destruct up as [[|c rest]|]; cbn.
  1, 3: eexists; split; [reflexivity|]; right; right; cbn; auto 7.
  destruct c as [[[[[|t0 t]|]]|]]; cbn.
  all: eexists; split; [reflexivity|]; left; cbn; split; [reflexivity|].
  all: eexists v, (c0 :: m), key, _, rest, _; repeat split; try exact Hp;
    try discriminate.
  all: first [left; split; [reflexivity|discriminate]|right; split; [cbn; auto|reflexivity]].
Qed.

(** *** The view between deliveries *)

Lemma commit_view (c : AppContextType) (s : App) :
  messages (chat (exec (React.commit c) s)) = messages (chat s)
  \/ messages (chat (exec (React.commit c) s)) = [].
Proof.
  open_state s.
  unfold exec, React.commit, bind, gets. cbv beta iota.
  cbn [context].
  destruct (React.sidebarDepsChanged c _), (React.chatDepsChanged c _).
  all: unfold_async; cbn.
  all: destruct u as [u|], sc as [h1|], cc as [h2|]; cbn; auto.
  all: repeat (match goal with
               | |- context [truthy_str ?x] => destruct (truthy_str x)
               end; cbn); auto.
Qed.

Lemma handleDeleteRoom_chat (roomId : jsstring) (confirmed : bool) (s : App) :
  chat (exec (Sidebar.handleDeleteRoom roomId confirmed) s) = chat s.
Proof.
  open_state s. open_world w. unfold_sidebar.
  destruct confirmed; cbn; [|reflexivity].
  destruct fs as [|[|] fs]; cbn; try reflexivity.
  all: destruct (strict_eq r (Some roomId)); reflexivity.
Qed.

Lemma handleCreateRoom_chat (s : App) :
  chat (exec Sidebar.handleCreateRoom s) = chat s.
Proof.
  open_state s. open_world w. unfold_sidebar. cbn.
  destruct (jseqb (trim nn) []); cbn; [reflexivity|].
  destruct fs as [|[|] [|[|] fs]]; cbn; try reflexivity.
  all: destruct (Firestore.queryRoomsWhereName _ _); reflexivity.
Qed.

Lemma sendMessage_view (s : App) :
  messages (chat (exec Chat.sendMessage s)) = messages (chat s).
Proof.
  destruct (Chat.refuses s) eqn:Hg; unfold exec.
  - now rewrite (sendMessage_refused s Hg).
  - rewrite (sendMessage_passes s Hg).
    destruct (deliver_frame (inputMessage (chat s)) (exec (setInputMessage []) s))
      as (_ & Hc & _).
    unfold exec in Hc |- *. rewrite Hc. reflexivity.
Qed.

Lemma handler_view (e : Event) (s : App) :
  viewSorted s -> viewSorted (exec (handler e) s).
Proof.
  unfold viewSorted. intros Hs.
  destruct e as [nu|k|k cf| |v| | |v| |h|h]; cbn [handler].
  - exact Hs.
  - unfold exec, bind, gets. cbv beta iota.
    destruct (nth_error (rooms (sidebar s)) k); exact Hs.
  - unfold exec, bind, gets. cbv beta iota.
    destruct (nth_error (rooms (sidebar s)) k) as [room|]; [|exact Hs].
    fold (exec (Sidebar.handleDeleteRoom (Room.id room) cf) s).
    now rewrite handleDeleteRoom_chat.
  - exact Hs.
  - exact Hs.
  - exact Hs.
  - now rewrite handleCreateRoom_chat.
  - exact Hs.
  - now rewrite sendMessage_view.
  - unfold exec, serve, bind, gets. cbv beta iota.
    destruct (listenerOf h s) as [l|]; [|exact Hs].
    destruct (target l) as [room|]; [|exact Hs].
    apply viewOf_sorted, queryMassagesAsc_sorted.
  - unfold exec, serveError, bind, gets. cbv beta iota.
    destruct (listenerOf h s) as [l|]; [|exact Hs].
    destruct (target l); exact Hs.
Qed.

Lemma react_view (e : Event) (s : App) : viewSorted s -> viewSorted (react e s).
Proof.
  intros Hs. unfold react.
  pose proof (handler_view e Hs) as Hh.
  unfold viewSorted in *.
  destruct (commit_view (context s) (exec (handler e) s)) as [-> | ->];
    [exact Hh|constructor].
Qed.

(** In every state the page can reach from its mount, whatever the
    events and the answers of the outside, the view is in non-decreasing
    order of creation timestamps. *)
Lemma view_sorted_in_every_state (es : list Event) (w : World) :
  viewSorted (run es (mount w)).
Proof.
  unfold run. rewrite <- fold_left_rev_right.
  induction (rev es) as [|e r IH]; simpl.
  - unfold viewSorted. cbn. constructor.
  - now apply react_view.
Qed.

(** *** The scenarios of the specification *)

(** Room "Demo" is created, then created again: the second create is
    answered by the duplicate-name message and writes no document. *)
Lemma scenario_demo_twice :
  let s := Example.demoAgain in
  let s' := react CreateClicked s in
  map Firestore.room_name (Firestore.rooms (store (world s))) = [lit "Demo"]
  /\ store (world s') = store (world s)
  /\ issued (world s') = issued (world s) ++ [GetRoomsWhereName (lit "Demo")]
  /\ errorMessage (sidebar s') = Strings.duplicate_name.
Proof. vm_compute. repeat split. Qed.

(** "hello" is sent in room "Demo" and the endpoint answers "hi": the
    log gains the human message, then the answer, and the view shows both
    once the listener is served. *)
Lemma scenario_hello :
  let s := Example.answered in
  map (fun d => (Firestore.massage_text d, Firestore.massage_sender d))
      (Firestore.massagesOf (lit "doc0") (store (world s)))
  = [(JStr (lit "hello"), user_sender); (JStr (lit "hi"), bot_sender)]
  /\ map (fun m => (Message.text m, Message.sender m))
         (messages (chat (react (SnapshotArrives 1) s)))
     = [(JStr (lit "hello"), user_sender); (JStr (lit "hi"), bot_sender)].
Proof. vm_compute. repeat split. Qed.

(** *** The claims on concrete sessions *)

(** C1, on the code.  A room named " Demo " exists and the dialog holds
    the very same name.  The pre-check asks the store for rooms named
    "Demo", the trimmed name, finds none, and the create writes a second
    room named " Demo ": one write, no duplicate-name message. *)
Theorem create_padded_name_twice :
  let s := Example.paddedAgain in
  let name := newRoomName (sidebar s) in
  let s' := react CreateClicked s in
  name = lit " Demo "
  /\ map Firestore.room_name (Firestore.rooms (store (world s))) = [name]
  /\ map Firestore.room_name (Firestore.rooms (store (world s'))) = [name; name]
  /\ issued (world s')
     = issued (world s) ++ [GetRoomsWhereName (lit "Demo"); AddRoom name (Some (lit "u1"))]
  /\ errorMessage (sidebar s') = [].
Proof. vm_compute. repeat split. Qed.

(** C2, counterexample.  Alice is signed in, has selected a room and
    typed "hello"; the store rejects the write of the human message.  The
    send returns without throwing, the log of the room stays empty, the
    only request that went out is the rejected write, and no apology was
    appended. *)
Lemma rejected_human_write_gets_no_apology :
  let s := Example.humanRejected in
  let s' := react SendClicked s in
  Chat.refuses s = false
  /\ hd false (faults (world s)) = true
  /\ fst (Chat.sendMessage s) = Fulfilled tt
  /\ Firestore.massages (store (world s')) = []
  /\ issued (world s')
     = issued (world s) ++ [AddMassage (lit "doc0") (JStr (lit "hello")) user_sender]
  /\ console (world s') = console (world s) ++ [ErrSendMessage FirebaseError].
Proof. vm_compute. repeat split. Qed.

(** C3, counterexample.  A send of three blanks in a selected room leaves
    the three blanks in the input field, and a send of "hello" without an
    identity leaves "hello" there: the field is not left empty. *)
Lemma refused_send_keeps_input :
  let s := Example.blankTyped in
  let a := Example.anonymousTyped in
  (Chat.refuses s = true
   /\ inputMessage (chat (react SendClicked s)) = lit "   "
   /\ jseqb (inputMessage (chat (react SendClicked s))) [] = false)
  /\ (Chat.refuses a = true
      /\ inputMessage (chat (react SendClicked a)) = lit "hello"
      /\ jseqb (inputMessage (chat (react SendClicked a))) [] = false).
Proof. vm_compute. repeat split. Qed.

(** Witness of C2: the endpoint answers 500 after the human message has
    been stored, and the apology is the second entry of the log; in the
    other session the first write is rejected and the store is unchanged. *)
Lemma sendMessage_failure_modes_witness :
  let s := Example.completionDown in
  let r := Example.humanRejected in
  (Chat.refuses s = false
   /\ hd false (faults (world s)) = false
   /\ CompletionFails (world s) 1
   /\ Firestore.massages (store (world (exec Chat.sendMessage s)))
      = Firestore.massages (store (world s))
        ++ [humanDoc (nonNull (selectedRoom (context s))) (inputMessage (chat s)) (world s);
            botDoc (nonNull (selectedRoom (context s))) (JStr Strings.apology) (world s) 1]
   /\ map Firestore.massage_text
        (Firestore.massages (store (world (exec Chat.sendMessage s))))
      = [JStr (lit "hello"); JStr Strings.apology])
  /\ (Chat.refuses r = false
      /\ hd false (faults (world r)) = true
      /\ store (world (exec Chat.sendMessage r)) = store (world r)).
Proof.
  cbv zeta.
  assert (Hg : Chat.refuses Example.completionDown = false) by (vm_compute; reflexivity).
  assert (Hf : hd false (faults (world Example.completionDown)) = false)
    by (vm_compute; reflexivity).
  assert (Hk : CompletionFails (world Example.completionDown) 1)
    by (eapply NonSuccess; vm_compute; reflexivity).
  assert (Hn : nth 1 (faults (world Example.completionDown)) false = false)
    by (vm_compute; reflexivity).
  assert (Ht : map Firestore.massage_text
                 (Firestore.massages
                    (store (world (exec Chat.sendMessage Example.completionDown))))
               = [JStr (lit "hello"); JStr Strings.apology])
    by (vm_compute; reflexivity).
  assert (Hg' : Chat.refuses Example.humanRejected = false) by (vm_compute; reflexivity).
  assert (Hf' : hd false (faults (world Example.humanRejected)) = true)
    by (vm_compute; reflexivity).
  destruct (sendMessage_failure_modes Example.completionDown Hg) as (_ & _ & H3).
  destruct (H3 1%nat Hf Hk) as (_ & Hacc & _).
  destruct (sendMessage_failure_modes Example.humanRejected Hg') as (_ & H2 & _).
  destruct (H2 Hf') as (Hst & _).
  exact (conj (conj Hg (conj Hf (conj Hk (conj (Hacc Hn) Ht))))
              (conj Hg' (conj Hf' Hst))).
Defined.

(** Witness of C3: three blanks in a selected room. *)
Lemma sendMessage_refused_changes_nothing_witness :
  let s := Example.blankTyped in
  trim (inputMessage (chat s)) = []
  /\ Chat.sendMessage s = (Fulfilled tt, s)
  /\ react SendClicked s = s.
Proof.
  cbv zeta.
  assert (Ht : trim (inputMessage (chat Example.blankTyped)) = [])
    by (vm_compute; reflexivity).
  exact (conj Ht (sendMessage_refused_changes_nothing Example.blankTyped
                    (or_intror (or_intror (or_intror Ht))))).
Defined.



(** Witness of C5: the selected room is deleted. *)
Lemma delete_clears_selection_of_deleted_room_witness :
  let s := Example.selected false in
  hd false (faults (world s)) = false
  /\ selectedRoom (context s) = Some (lit "doc0")
  /\ selectedRoom (context (exec (Sidebar.handleDeleteRoom (lit "doc0") true) s)) = None
  /\ selectedRoomName (context (exec (Sidebar.handleDeleteRoom (lit "doc0") true) s)) = None.
Proof.
  cbv zeta.
  assert (Hf : hd false (faults (world (Example.selected false))) = false)
    by (vm_compute; reflexivity).
  assert (Hs : selectedRoom (context (Example.selected false)) = Some (lit "doc0"))
    by (vm_compute; reflexivity).
  destruct (delete_clears_selection_of_deleted_room (Example.selected false) (lit "doc0") Hf)
    as (_ & _ & Hsel & _).
  destruct (Hsel Hs) as (H1 & H2).
  exact (conj Hf (conj Hs (conj H1 H2))).
Defined.


(** Witness of C8: Alice signs out while the room "Demo" is subscribed. *)
Lemma sign_out_closes_stream_witness :
  let s := Example.answered in
  Subscribed s 1 (lit "doc0")
  /\ Closed (react (AuthStateChanged None) s) 1
  /\ messages (chat (react (AuthStateChanged None) s)) = [].
Proof.
  cbv zeta.
  assert (Hs : Subscribed Example.answered 1 (lit "doc0")).
  { unfold Subscribed.
    refine (conj _ (conj _ (conj _ (conj _ _)))); vm_compute; reflexivity. }
  destruct (sign_out_closes_stream Hs) as (_ & Hc & _ & Hm).
  exact (conj Hs (conj Hc Hm)).
Defined.

(** Witness of C9: the store rejects the delete of the selected room. *)
Lemma delete_failure_keeps_selection_witness :
  let s := Example.selected true in
  hd false (faults (world s)) = true
  /\ selectedRoom (context s) = Some (lit "doc0")
  /\ selectedRoom (context (exec (Sidebar.handleDeleteRoom (lit "doc0") true) s))
     = selectedRoom (context s)
  /\ selectedRoomName (context (exec (Sidebar.handleDeleteRoom (lit "doc0") true) s))
     = selectedRoomName (context s).
Proof.
  cbv zeta.
  assert (Hf : hd false (faults (world (Example.selected true))) = true)
    by (vm_compute; reflexivity).
  assert (Hs : selectedRoom (context (Example.selected true)) = Some (lit "doc0"))
    by (vm_compute; reflexivity).
  destruct (delete_failure_keeps_selection (Example.selected true) (lit "doc0") Hf)
    as (_ & H1 & H2 & _).
  exact (conj Hf (conj Hs (conj H1 H2))).
Defined.

(** Witness of C10: Alice signs out while the directory lists "Demo". *)
Lemma sign_out_keeps_room_list_witness :
  let s := Example.answered in
  Listing s 0
  /\ List.length (rooms (sidebar s)) = 1%nat
  /\ Closed (react (AuthStateChanged None) s) 0
  /\ rooms (sidebar (react (AuthStateChanged None) s)) = rooms (sidebar s)
  /\ messages (chat (react (AuthStateChanged None) s)) = [].
Proof.
  cbv zeta.
  assert (Hs : Listing Example.answered 0).
  { unfold Listing. refine (conj _ (conj _ (conj _ _))); vm_compute; reflexivity. }
  assert (H1 : List.length (rooms (sidebar Example.answered)) = 1%nat)
    by (vm_compute; reflexivity).
  destruct (sign_out_keeps_room_list Hs) as (Hc & _ & Hr & Hm).
  exact (conj Hs (conj H1 (conj Hc (conj Hr Hm)))).
Defined.

(** ** Further properties of the room directory *)

(** A create with a name that is empty once trimmed does nothing at
    all: no request is sent, the dialog stays open and no message is
    shown; the render that follows re-runs no effect. *)
Lemma create_blank_name_is_noop (s : App) :
  trim (newRoomName (sidebar s)) = [] ->
  Sidebar.handleCreateRoom s = (Fulfilled tt, s) /\ react CreateClicked s = s.
Proof.
  intros Ht.
  assert (H : Sidebar.handleCreateRoom s = (Fulfilled tt, s)).
  { unfold Sidebar.handleCreateRoom, bind, gets. cbv beta iota zeta.
    rewrite Ht. reflexivity. }
  split; [exact H|].
  unfold react, handler, exec. rewrite H. simpl. now rewrite commit_unchanged.
Qed.

Lemma trim_nonempty (t : jsstring) : t <> [] -> jseqb t [] = false.
Proof.
  intros Ht. destruct (jseqb t []) eqn:E; [|reflexivity].
  apply jseqb_eq in E. contradiction.
Qed.

Lemma query_empty_not_in (v : jsstring) (db : Firestore.t) :
  Firestore.queryRoomsWhereName v db = [] ->
  ~ In v (map Firestore.room_name (Firestore.rooms db)).
Proof.
  unfold Firestore.queryRoomsWhereName. intros Hq Hin.
  apply in_map_iff in Hin as (d & Hn & Hd).
  assert (H : In d (filter (fun r => jseqb (Firestore.room_name r) v) (Firestore.rooms db))).
  { apply filter_In. split; [assumption|]. rewrite Hn. apply jseqb_refl. }
  rewrite Hq in H. destruct H.
Qed.

(** Every way a create can end. *)
Lemma create_outcomes (s : App) :
  let name := newRoomName (sidebar s) in
  let w := world s in
  let s' := exec Sidebar.handleCreateRoom s in
  fst (Sidebar.handleCreateRoom s) = Fulfilled tt
  /\ context s' = context s /\ chat s' = chat s
  /\ rooms (sidebar s') = rooms (sidebar s)
  /\ sidebarCleanup (sidebar s') = sidebarCleanup (sidebar s)
  /\ Firestore.massages (store (world s')) = Firestore.massages (store w)
  /\ listeners (world s') = listeners w
  /\ nextHandle (world s') = nextHandle w
  /\ ((Firestore.rooms (store (world s')) = Firestore.rooms (store w)
       /\ (s' = s
           \/ (errorMessage (sidebar s') <> []
               /\ newRoomName (sidebar s') = name
               /\ isModalOpen (sidebar s') = isModalOpen (sidebar s))))
      \/ (Firestore.queryRoomsWhereName (trim name) (store w) = []
          /\ trim name <> []
          /\ isModalOpen (sidebar s') = false
          /\ newRoomName (sidebar s') = []
          /\ errorMessage (sidebar s') = []
          /\ exists d, Firestore.rooms (store (world s')) = Firestore.rooms (store w) ++ [d]
                       /\ Firestore.room_name d = name
                       /\ Firestore.room_createdBy d = userid (context s))).
Proof.
  open_state s. open_world w. unfold_sidebar. cbn.
  destruct (jseqb (trim nn) []) eqn:E; cbn.
  { repeat split. left. split; [reflexivity|now left]. }
  assert (Ht : trim nn <> []) by (intros H; rewrite H in E; discriminate).
  destruct fs as [|[|] [|[|] fs]]; cbn.
  all: try (repeat split; left; split; [reflexivity|right; repeat split; discriminate]).
  all: destruct (Firestore.queryRoomsWhereName (trim nn) db) eqn:Q; cbn.
  all: try (repeat split; left; split; [reflexivity|right; repeat split; discriminate]).
  all: repeat split; right; repeat split; try assumption; eexists; repeat split.
Qed.

(** A create with a name that is new once trimmed, answered by the
    store: exactly one room is written, under the name as typed and with
    the creating identity; the dialog closes and its field and message
    are emptied. *)
Theorem create_fresh_name (s : App) :
  let name := newRoomName (sidebar s) in
  let w := world s in
  trim name <> [] ->
  hd false (faults w) = false ->
  nth 1 (faults w) false = false ->
  Firestore.queryRoomsWhereName (trim name) (store w) = [] ->
  let s' := exec Sidebar.handleCreateRoom s in
  (exists d, Firestore.rooms (store (world s')) = Firestore.rooms (store w) ++ [d]
             /\ Firestore.room_name d = name
             /\ Firestore.room_createdBy d = userid (context s))
  /\ issued (world s')
     = issued w ++ [GetRoomsWhereName (trim name); AddRoom name (userid (context s))]
  /\ isModalOpen (sidebar s') = false
  /\ newRoomName (sidebar s') = []
  /\ errorMessage (sidebar s') = [].
Proof.
  cbv zeta. intros Ht Hf0 Hf1 Hq. set (s' := exec Sidebar.handleCreateRoom s).
  destruct (create_writes_untrimmed_name s Ht Hf0 Hf1 Hq) as (Hr & Hi & He).
  destruct (create_outcomes s) as (_ & _ & _ & _ & _ & _ & _ & _ & [(Hsame & _)|Hnew]).
  - exfalso. fold s' in Hr. unfold s' in Hr. rewrite Hsame in Hr.
    apply (f_equal (@List.length _)) in Hr. rewrite length_app in Hr. simpl in Hr. lia.
  - destruct Hnew as (_ & _ & Hm & Hn & _ & d & Hd & Hdn & Hdc).
    split; [now exists d|]. repeat split; assumption.
Qed.

(** A create whose trimmed name is borne by a room, answered by the
    store: nothing is written, the duplicate-name message is shown, and
    the dialog stays as it is, with the name still in its field. *)
Theorem create_duplicate_keeps_dialog (s : App) (d : Firestore.RoomDoc) :
  let name := newRoomName (sidebar s) in
  let w := world s in
  trim name <> [] ->
  hd false (faults w) = false ->
  In d (Firestore.rooms (store w)) ->
  Firestore.room_name d = trim name ->
  let s' := exec Sidebar.handleCreateRoom s in
  fst (Sidebar.handleCreateRoom s) = Fulfilled tt
  /\ store (world s') = store w
  /\ issued (world s') = issued w ++ [GetRoomsWhereName (trim name)]
  /\ errorMessage (sidebar s') = Strings.duplicate_name
  /\ newRoomName (sidebar s') = name
  /\ isModalOpen (sidebar s') = isModalOpen (sidebar s).
Proof.
  cbv zeta. intros Ht Hf Hin Hn. set (s' := exec Sidebar.handleCreateRoom s).
  destruct (create_rejects_known_trimmed_name s d Ht Hf Hin Hn) as (Hst & Hi & He).
  destruct (create_outcomes s) as (Hok & _ & _ & _ & _ & _ & _ & _ & [(_ & Hcase)|Hnew]).
  - destruct Hcase as [Hs|(_ & Hnn & Hmo)].
    + exfalso. fold s' in He. unfold s' in He. rewrite Hs in He.
      fold s' in Hi. unfold s' in Hi. rewrite Hs in Hi.
      apply (f_equal (@List.length _)) in Hi. rewrite length_app in Hi. simpl in Hi. lia.
    + repeat split; assumption.
  - exfalso. destruct Hnew as (Hq & _).
    apply (query_empty_not_in _ _ Hq). rewrite <- Hn. now apply in_map.
Qed.

(** A create the store fails, at the pre-check or at the write: nothing
    is written, the failure message is shown instead of an error
    reaching the caller, and the dialog keeps the name. *)
Theorem create_store_failure (s : App) :
  let name := newRoomName (sidebar s) in
  let w := world s in
  trim name <> [] ->
  hd false (faults w) = true
  \/ (hd false (faults w) = false
      /\ Firestore.queryRoomsWhereName (trim name) (store w) = []
      /\ nth 1 (faults w) false = true) ->
  let s' := exec Sidebar.handleCreateRoom s in
  fst (Sidebar.handleCreateRoom s) = Fulfilled tt
  /\ store (world s') = store w
  /\ errorMessage (sidebar s') = Strings.create_failed
  /\ newRoomName (sidebar s') = name
  /\ isModalOpen (sidebar s') = isModalOpen (sidebar s)
  /\ console (world s') = console w ++ [ErrCreateRoom FirebaseError].
Proof.
  open_state s. open_world w. intros Ht Hcase.
  pose proof (trim_nonempty Ht) as E.
  destruct Hcase as [Hf|(Hf0 & Hq & Hf1)].
  - destruct fs as [|[|] fs]; try discriminate.
    unfold_sidebar; cbn; rewrite E; cbn. repeat split.
  - destruct fs as [|[|] [|[|] fs]]; try discriminate.
    unfold_sidebar; cbn; rewrite E; cbn; rewrite Hq; cbn. repeat split.
Qed.

(** As long as names are typed without blanks around them, creates keep
    the names of the rooms pairwise distinct, whatever the store answers. *)
Theorem create_keeps_names_distinct (s : App) :
  let name := newRoomName (sidebar s) in
  trim name = name ->
  NoDup (map Firestore.room_name (Firestore.rooms (store (world s)))) ->
  NoDup (map Firestore.room_name
           (Firestore.rooms (store (world (exec Sidebar.handleCreateRoom s))))).
Proof.
  cbv zeta. intros Ht Hnd.
  destruct (create_outcomes s) as (_ & _ & _ & _ & _ & _ & _ & _ & [(Hsame & _)|Hnew]).
  - now rewrite Hsame.
  - destruct Hnew as (Hq & _ & _ & _ & _ & d & Hd & Hdn & _).
    rewrite Hd, map_app. simpl.
    apply NoDup_app_remove_l with (l := []). simpl.
    apply Permutation_NoDup with (l := Firestore.room_name d
                                        :: map Firestore.room_name
                                             (Firestore.rooms (store (world s)))).
    + apply Permutation_cons_append.
    + constructor; [|assumption].
      rewrite Hdn, <- Ht. apply query_empty_not_in. exact Hq.
Qed.

(** Every way a delete can end: it never throws, sends at most the one
    request for the room document, and touches neither the messages, nor
    the listeners, nor the two components' own state. *)
Lemma delete_outcomes (roomId : jsstring) (confirmed : bool) (s : App) :
  let w := world s in
  let s' := exec (Sidebar.handleDeleteRoom roomId confirmed) s in
  fst (Sidebar.handleDeleteRoom roomId confirmed s) = Fulfilled tt
  /\ chat s' = chat s /\ sidebar s' = sidebar s
  /\ user (context s') = user (context s) /\ userid (context s') = userid (context s)
  /\ Firestore.massages (store (world s')) = Firestore.massages (store w)
  /\ listeners (world s') = listeners w
  /\ nextHandle (world s') = nextHandle w
  /\ (confirmed = false -> s' = s)
  /\ (issued (world s') = issued w \/ issued (world s') = issued w ++ [DeleteRoom roomId])
  /\ (Firestore.rooms (store (world s')) = Firestore.rooms (store w)
      \/ Firestore.rooms (store (world s'))
         = filter (fun r => negb (jseqb (Firestore.room_id r) roomId))
                  (Firestore.rooms (store w))).
Proof.
  open_state s. open_world w. unfold_sidebar.
  destruct confirmed; cbn.
  2: { repeat split; auto. }
  destruct fs as [|[|] fs]; cbn.
  all: try destruct (strict_eq r (Some roomId)); cbn.
  all: repeat split; auto; discriminate.
Qed.

Lemma delete_accepted_store (s : App) (roomId : jsstring) :
  hd false (faults (world s)) = false ->
  store (world (exec (Sidebar.handleDeleteRoom roomId true) s))
  = Firestore.deleteRoom roomId (store (world s)).
Proof.
  open_state s. open_world w. intros Hf.
  destruct fs as [|[|] fs]; try discriminate.
  all: unfold_sidebar; cbn; destruct (strict_eq r (Some roomId)); reflexivity.
Qed.

(** An accepted delete removes the documents of that identifier from the
    room collection and nothing else: every other room stays, and the
    messages stored under the deleted room stay in the store. *)
Theorem delete_removes_only_that_room (s : App) (roomId : jsstring) :
  hd false (faults (world s)) = false ->
  let db := store (world s) in
  let db' := store (world (exec (Sidebar.handleDeleteRoom roomId true) s)) in
  (forall d, In d (Firestore.rooms db')
             <-> In d (Firestore.rooms db) /\ Firestore.room_id d <> roomId)
  /\ Firestore.massagesOf roomId db' = Firestore.massagesOf roomId db
  /\ Firestore.massages db' = Firestore.massages db.
Proof.
  intros Hf. cbv zeta. rewrite (delete_accepted_store s roomId Hf).
  unfold Firestore.deleteRoom, Firestore.massagesOf. cbn.
  split; [|split; reflexivity].
  intros d. split.
  - intros Hin. apply filter_In in Hin as (Hin & Hne). split; [assumption|].
    intros Heq. rewrite Heq, jseqb_refl in Hne. discriminate.
  - intros (Hin & Hne). apply filter_In. split; [assumption|].
    destruct (jseqb (Firestore.room_id d) roomId) eqn:E; [|reflexivity].
    apply jseqb_eq in E. contradiction.
Qed.

(** ** The two subscriptions in every reachable state *)

Lemma commit_context (c : AppContextType) (s : App) :
  context (exec (React.commit c) s) = context s.
Proof.
  open_state s.
  unfold exec, React.commit, bind, gets. cbv beta iota. cbn [context].
  destruct (React.sidebarDepsChanged c _), (React.chatDepsChanged c _).
  all: unfold_async; cbn.
  all: destruct u as [u|], sc as [h1|], cc as [h2|]; cbn; auto.
  all: repeat (match goal with
               | |- context [truthy_str ?x] => destruct (truthy_str x)
               end; cbn); auto.
Qed.

Lemma sidebar_deps_in_chat_deps (b a : AppContextType) :
  React.chatDepsChanged b a = false -> React.sidebarDepsChanged b a = false.
Proof.
  unfold React.chatDepsChanged, React.sidebarDepsChanged.
  destruct (strict_eq (selectedRoom b) (selectedRoom a)),
    (React.sameUser (user b) (user a)), (strict_eq (userid b) (userid a));
    simpl; congruence.
Qed.

Lemma sameUser_truthy (a b : option User) :
  React.sameUser a b = true -> truthy_obj a = truthy_obj b.
Proof. destruct a, b; simpl; congruence. Qed.

Lemma eqb_lt_false (a b : N) : (a < b)%N -> (a =? b)%N = false.
Proof. intros H. apply N.eqb_neq. lia. Qed.

Lemma eqb_neq_false (a b : N) : a <> b -> (a =? b)%N = false.
Proof. apply N.eqb_neq. Qed.

Ltac settle :=
  repeat (cbn;
    match goal with
    | |- context [(?a =? ?a)%N] => rewrite N.eqb_refl
    | H : ?a <> ?b |- context [(?a =? ?b)%N] => rewrite (eqb_neq_false H)
    | H : ?a <> ?b |- context [(?b =? ?a)%N] =>
        rewrite (eqb_neq_false (fun E => H (eq_sym E)))
    | H : truthy_str ?x = _ |- context [truthy_str ?x] => rewrite H
    end).

(** The commit brings the effects in step with the new context. *)
Lemma commit_in_step (before : AppContextType) (s : App) :
  InStep before s -> InStep (context s) (exec (React.commit before) s).
Proof.
  destruct before as [u0 i0 r0 rn0]. open_state s. open_world w.
  unfold InStep, identified. cbn.
  intros (Hl & Hs & Hc & Hsn & Hcn & Hne & Hm).
  unfold exec, React.commit, bind, gets. cbv beta iota. cbn [context].
  destruct (React.chatDepsChanged _ _) eqn:Dc.
  2: { rewrite (sidebar_deps_in_chat_deps _ _ Dc). cbn.
       unfold React.chatDepsChanged in Dc. cbn in Dc.
       apply negb_false_iff in Dc. apply andb_true_iff in Dc as (Dc & Hi).
       apply andb_true_iff in Dc as (Hr & Hu).
       apply strict_eq_eq in Hr, Hi. apply sameUser_truthy in Hu. subst r0 i0.
       rewrite <- Hu. repeat split; assumption. }
  destruct (truthy_str i) eqn:Ti, (truthy_str r) eqn:Tr.
  all: destruct (React.sidebarDepsChanged _ _) eqn:Ds.
  all: try (unfold React.sidebarDepsChanged in Ds; cbn in Ds;
            apply negb_false_iff in Ds; apply andb_true_iff in Ds as (Hu & Hi);
            apply strict_eq_eq in Hi; apply sameUser_truthy in Hu; subst i0;
            rewrite Hu, Ti in *).
  all: clear Dc; try clear Ds.
  all: destruct sc as [hs|], cc as [hc|]; cbn in *; try discriminate; subst ls.
  all: try pose proof (Hne hs hc eq_refl eq_refl) as Hd.
  all: try pose proof (Hsn hs eq_refl) as Hsl.
  all: try pose proof (Hcn hc eq_refl) as Hcl.
  all: destruct u as [u|]; cbn in *; try discriminate.
  all: unfold_async; settle.
  all: repeat split; try reflexivity; try discriminate; intros; cbn in *;
    try discriminate;
    repeat match goal with H : Some _ = Some _ |- _ => injection H as <- end;
    try lia.
Qed.

Lemma in_step_same (c : AppContextType) (s s' : App) :
  SameSubscriptions s s' -> InStep c s -> InStep c s'.
Proof.
  unfold SameSubscriptions, InStep.
  intros (Hs & Hc & Hm & Hl & Hn). rewrite Hs, Hc, Hm, Hl, Hn. exact (fun H => H).
Qed.

(** A send touches neither the listeners nor the handles. *)
Lemma deliver_listeners (text : jsstring) (s : App) :
  let s' := exec (Chat.deliver text) s in
  listeners (world s') = listeners (world s)
  /\ nextHandle (world s') = nextHandle (world s).
Proof.
  open_state s. open_world w. unfold_send. split_cases; split; reflexivity.
Qed.

Lemma sendMessage_same (s : App) : SameSubscriptions s (exec Chat.sendMessage s).
Proof.
  unfold SameSubscriptions.
  destruct (Chat.refuses s) eqn:Hg; unfold exec.
  - rewrite (sendMessage_refused s Hg). repeat split.
  - rewrite (sendMessage_passes s Hg).
    set (s0 := exec (setInputMessage []) s).
    destruct (deliver_frame (inputMessage (chat s)) s0) as (_ & Hc & Hs).
    destruct (deliver_listeners (inputMessage (chat s)) s0) as (Hl & Hn).
    unfold exec in Hc, Hs, Hl, Hn. rewrite Hc, Hs, Hl, Hn. repeat split.
Qed.

Lemma handler_same (e : Event) (s : App) :
  (forall h, e <> SnapshotArrives h) ->
  SameSubscriptions s (exec (handler e) s).
Proof.
  intros He. unfold SameSubscriptions.
  destruct e as [nu|k|k cf| |v| | |v| |h|h]; cbn [handler].
  - repeat split.
  - unfold exec, bind, gets. cbv beta iota.
    destruct (nth_error (rooms (sidebar s)) k); repeat split.
  - unfold exec, bind, gets. cbv beta iota.
    destruct (nth_error (rooms (sidebar s)) k) as [room|]; [|repeat split].
    destruct (delete_outcomes (Room.id room) cf s)
      as (_ & Hc & Hs & _ & _ & _ & Hl & Hn & _).
    unfold exec in Hc, Hs, Hl, Hn. rewrite Hc, Hs, Hl, Hn. repeat split.
  - repeat split.
  - repeat split.
  - repeat split.
  - destruct (create_outcomes s) as (_ & _ & Hc & _ & Hs & _ & Hl & Hn & _).
    rewrite Hc, Hs, Hl, Hn. repeat split.
  - repeat split.
  - apply sendMessage_same.
  - now elim (He h).
  - unfold exec, serveError, bind, gets. cbv beta iota.
    destruct (listenerOf h s) as [l|]; [|repeat split].
    destruct (target l); repeat split.
Qed.

Lemma served_in_step (c : AppContextType) (h : N) (s : App) :
  InStep c s -> InStep c (exec (serve h) s).
Proof.
  open_state s. open_world w. unfold InStep, exec, serve, listenerOf, bind, gets.
  cbn. intros (Hl & Hrest). subst ls.
  destruct sc as [hs|], cc as [hc|]; cbn.
  all: repeat (match goal with
               | |- context [(?a =? ?b)%N] => destruct (a =? b)%N
               end; cbn).
  all: split; [reflexivity|]; try exact Hrest.
  all: destruct Hrest as (H1 & H2 & H3 & H4 & H5 & H6); repeat split;
    try assumption; discriminate.
Qed.

Lemma handler_in_step (c : AppContextType) (e : Event) (s : App) :
  InStep c s -> InStep c (exec (handler e) s).
Proof.
  intros H. destruct e as [nu|k|k cf| |v| | |v| |h|h].
  10: exact (served_in_step h H).
  all: eapply in_step_same; [apply handler_same; intros h'; discriminate|exact H].
Qed.

Lemma react_in_step (e : Event) (s : App) :
  InStep (context s) s -> InStep (context (react e s)) (react e s).
Proof.
  intros H. unfold react.
  rewrite commit_context. apply commit_in_step. now apply handler_in_step.
Qed.

Lemma mount_in_step (w : World) :
  listeners w = [] -> InStep (context (mount w)) (mount w).
Proof.
  intros Hl. unfold InStep, identified. unfold mount. unfold_async. cbn.
  rewrite Hl. repeat split; intros; discriminate.
Qed.

(** In every state the page reaches from its mount in a world without
    listeners, the effects are in step with the context. *)
Lemma in_step_in_every_state (es : list Event) (w : World) :
  listeners w = [] ->
  InStep (context (run es (mount w))) (run es (mount w)).
Proof.
  intros Hl. unfold run. rewrite <- fold_left_rev_right.
  induction (rev es) as [|e r IH]; simpl.
  - now apply mount_in_step.
  - now apply react_in_step.
Qed.

(** No listener leaks.  In every state the page reaches from its mount,
    the open listeners are exactly the ones the two effects hold a
    cleanup for: at most one on the room collection, followed by at most
    one on the messages of a room, and that room is the selected one. *)
Theorem listeners_are_the_held_ones (es : list Event) (w : World) :
  listeners w = [] ->
  let s := run es (mount w) in
  listeners (world s)
  = held (sidebarCleanup (sidebar s)) RoomsDesc
    ++ held (chatCleanup (chat s)) (MassagesAsc (nonNull (selectedRoom (context s))))
  /\ (List.length (listeners (world s)) <= 2)%nat
  /\ NoDup (map handle (listeners (world s))).
Proof.
  intros Hl s. destruct (in_step_in_every_state es w Hl) as (H & _ & _ & _ & _ & Hne & _).
  fold s in H, Hne. split; [exact H|]. rewrite H.
  destruct (sidebarCleanup (sidebar s)) as [hs|], (chatCleanup (chat s)) as [hc|];
    cbn; split; try lia; repeat constructor; cbn; try tauto.
  intros [E|[]]. exact (Hne hs hc eq_refl eq_refl (eq_sym E)).
Qed.

(** The state machine of the message stream.  In every state the page
    reaches from its mount, the stream holds a listener exactly when an
    identity is present and a room is selected, the directory holds one
    exactly when an identity is present, and the view is empty whenever
    the stream holds none. *)
Theorem stream_subscribed_iff_selected (es : list Event) (w : World) :
  listeners w = [] ->
  let s := run es (mount w) in
  holds (chatCleanup (chat s))
  = identified (context s) && truthy_str (selectedRoom (context s))
  /\ holds (sidebarCleanup (sidebar s)) = identified (context s)
  /\ (chatCleanup (chat s) = None -> messages (chat s) = []).
Proof.
  intros Hl s. destruct (in_step_in_every_state es w Hl) as (_ & Hs & Hc & _ & _ & _ & Hm).
  fold s in Hs, Hc, Hm. auto.
Qed.

Lemma served_view_cases (c : AppContextType) (h : N) (s : App) :
  InStep c s ->
  messages (chat (exec (serve h) s)) = messages (chat s)
  \/ (chatCleanup (chat s) = Some h
      /\ messages (chat (exec (serve h) s))
         = map viewOf (Firestore.queryMassagesAsc (nonNull (selectedRoom c))
                         (store (world s)))).
Proof.
  open_state s. open_world w. unfold InStep, exec, serve, listenerOf, bind, gets.
  cbn. intros (Hl & _). subst ls.
  destruct sc as [hs|], cc as [hc|]; cbn; auto.
  all: repeat (match goal with
               | |- context [(?a =? ?b)%N] => destruct (a =? b)%N eqn:?
               end; cbn); auto.
  all: right; split; [|reflexivity].
  all: match goal with H : (_ =? _)%N = true |- _ => apply N.eqb_eq in H; now subst end.
Qed.

(** No stale delivery.  In every state the page reaches from its mount,
    a snapshot that arrives for any handle either leaves the view as it
    is or replaces it by the ordered messages of the room that is
    selected now: the messages of a room selected earlier never enter the
    view after the selection has changed. *)
Theorem served_view_is_of_selected_room (es : list Event) (w : World) (h : N) :
  listeners w = [] ->
  let s := run es (mount w) in
  let s' := react (SnapshotArrives h) s in
  messages (chat s') = messages (chat s)
  \/ (truthy_str (selectedRoom (context s)) = true
      /\ messages (chat s')
         = map viewOf (Firestore.queryMassagesAsc (nonNull (selectedRoom (context s)))
                         (store (world s)))).
Proof.
  intros Hl s s'. pose proof (in_step_in_every_state es w Hl) as Hin. fold s in Hin.
  assert (Hc : context (exec (handler (SnapshotArrives h)) s) = context s).
  { cbn [handler]. unfold exec, serve, bind, gets. cbv beta iota.
    destruct (listenerOf h s) as [l|]; [|reflexivity]. destruct (target l); reflexivity. }
  assert (Hs' : s' = exec (serve h) s).
  { subst s'. unfold react. rewrite <- Hc. unfold exec at 1.
    rewrite commit_unchanged. reflexivity. }
  rewrite Hs'. destruct (served_view_cases h Hin) as [H|(Hh & H)]; [now left|right].
  split; [|exact H].
  destruct Hin as (_ & _ & Hch & _). rewrite Hh in Hch. cbn in Hch.
  symmetry in Hch. apply andb_true_iff in Hch. tauto.
Qed.

Lemma switch_in_step (s : App) (i : nat) (r' : Room.t) :
  InStep (context s) s ->
  identified (context s) = true ->
  nth_error (rooms (sidebar s)) i = Some r' ->
  truthy_str (Some (Room.id r')) = true ->
  selectedRoom (context s) <> Some (Room.id r') ->
  let s' := react (RoomClicked i) s in
  selectedRoom (context s') = Some (Room.id r')
  /\ selectedRoomName (context s') = Some (Room.name r')
  /\ chatCleanup (chat s') = Some (nextHandle (world s))
  /\ listeners (world s')
     = held (sidebarCleanup (sidebar s)) RoomsDesc
       ++ [ {| handle := nextHandle (world s); target := MassagesAsc (Room.id r') |} ]
  /\ messages (chat s') = messages (chat s).
Proof.
  open_state s. open_world w. unfold InStep, identified. cbn.
  intros (Hl & Hs & Hc & Hsn & Hcn & Hne & Hm) Hid Hn Ht Hr.
  apply andb_true_iff in Hid as (Hu & Hi).
  destruct u as [u|]; [clear Hu|discriminate].
  assert (E : strict_eq r (Some (Room.id r')) = false).
  { destruct (strict_eq r (Some (Room.id r'))) eqn:E; [|reflexivity].
    apply strict_eq_eq in E. contradiction. }
  unfold react, exec, handler, bind, gets. cbv beta iota. cbn [sidebar rooms].
  rewrite Hn. unfold Sidebar.selectRoom, React.commit, React.chatDepsChanged,
    React.sidebarDepsChanged. unfold_async. cbn.
  rewrite E, jseqb_refl, strict_eq_refl. cbn. subst ls.
  pose proof Ht as Ht'. cbn in Ht'.
  destruct sc as [hs|], cc as [hc|]; cbn in *; try discriminate.
  all: try pose proof (Hne hs hc eq_refl eq_refl) as Hd.
  all: settle; rewrite ?Hi, ?Ht'; settle; repeat split.
Qed.

(** Selecting another room.  In every state the page reaches from its
    mount, when an identity is present and a listed room other than the
    selected one is clicked, the render closes the listener of the room
    left, if there was one, and opens one listener on the clicked room;
    the view keeps the entries it had, those of the room left, until the
    first snapshot of the new room is served. *)
Theorem room_switch_resubscribes (es : list Event) (w : World) (i : nat) (r' : Room.t) :
  listeners w = [] ->
  let s := run es (mount w) in
  identified (context s) = true ->
  nth_error (rooms (sidebar s)) i = Some r' ->
  truthy_str (Some (Room.id r')) = true ->
  selectedRoom (context s) <> Some (Room.id r') ->
  let s' := react (RoomClicked i) s in
  selectedRoom (context s') = Some (Room.id r')
  /\ selectedRoomName (context s') = Some (Room.name r')
  /\ chatCleanup (chat s') = Some (nextHandle (world s))
  /\ listeners (world s')
     = held (sidebarCleanup (sidebar s)) RoomsDesc
       ++ [ {| handle := nextHandle (world s); target := MassagesAsc (Room.id r') |} ]
  /\ messages (chat s') = messages (chat s).
Proof.
  intros Hl s. apply switch_in_step. exact (in_step_in_every_state es w Hl).
Qed.

Lemma find_after_unsubscribe (h : N) (ls : list Listener) :
  find (fun l => (handle l =? h)%N) (filter (fun l => negb (handle l =? h)%N) ls) = None.
Proof.
  induction ls as [|l ls IH]; simpl; [reflexivity|].
  destruct (handle l =? h)%N eqn:E; simpl; [exact IH|]. now rewrite E.
Qed.

(** A snapshot for a handle no listener has changes nothing. *)
Lemma unheard_snapshot (h : N) (s : App) :
  listenerOf h s = None -> react (SnapshotArrives h) s = s.
Proof.
  intros Hn.
  assert (H : serve h s = (Fulfilled tt, s)).
  { unfold serve, bind, gets. cbv beta iota. now rewrite Hn. }
  unfold react, handler, exec. rewrite H. simpl. now rewrite commit_unchanged.
Qed.

(** After the identity is lost, a snapshot that was under way for the
    closed listener of the message stream changes nothing: the view stays
    empty. *)
Theorem late_snapshot_after_sign_out (s : App) (h : N) (room : jsstring) :
  Subscribed s h room ->
  let s1 := react (AuthStateChanged None) s in
  let s2 := react (SnapshotArrives h) s1 in
  s2 = s1 /\ messages (chat s2) = [].
Proof.
  intros (Hc & _ & Hu & _ & _). cbv zeta.
  assert (H1 : listenerOf h (react (AuthStateChanged None) s) = None
               /\ messages (chat (react (AuthStateChanged None) s)) = []).
  { open_state s. subst cc. destruct u as [u|]; [clear Hu|discriminate].
    unfold listenerOf, react, exec, handler, AppProvider.onAuthStateChanged,
      React.commit, React.chatDepsChanged, React.sidebarDepsChanged.
    destruct sc as [h'|]; cbn; rewrite ?andb_false_r; cbn;
      (split; [|reflexivity]); apply find_after_unsubscribe. }
  destruct H1 as (Hn & Hm). rewrite (unheard_snapshot h _ Hn). now split.
Qed.

(** Deleting the selected room.  When the stream is subscribed to a
    listed room, the user confirms its deletion and the store accepts
    it, the selection is emptied and the render that follows closes the
    listener of the stream and empties the view. *)
Theorem delete_selected_room_closes_stream (s : App) (h : N) (i : nat) (r' : Room.t) :
  Subscribed s h (Room.id r') ->
  nth_error (rooms (sidebar s)) i = Some r' ->
  hd false (faults (world s)) = false ->
  let s' := react (DeleteClicked i true) s in
  selectedRoom (context s') = None
  /\ selectedRoomName (context s') = None
  /\ chatCleanup (chat s') = None
  /\ listenerOf h s' = None
  /\ messages (chat s') = [].
Proof.
  intros (Hc & _ & Hu & Hi & Hr) Hn Hf. open_state s. open_world w. subst cc r.
  destruct u as [u|]; [clear Hu|discriminate].
  destruct fs as [|[|] fs]; try discriminate.
  all: unfold listenerOf, react, exec, handler, bind, gets; cbv beta iota;
    cbn [sidebar rooms]; rewrite Hn;
    unfold React.commit, React.chatDepsChanged, React.sidebarDepsChanged;
    unfold_sidebar; cbn; rewrite !jseqb_refl; cbn;
    rewrite ?strict_eq_refl, ?jseqb_refl; cbn; rewrite Hi; cbn.
  all: repeat split; apply find_after_unsubscribe.
Qed.

Lemma queryRoomsDesc_sorted (db : Firestore.t) :
  StronglySorted (fun a b => (Firestore.room_createdAt b <= Firestore.room_createdAt a)%Z)
    (Firestore.queryRoomsDesc db).
Proof.
  apply Sorted_StronglySorted.
  - intros a b c Hab Hbc. lia.
  - unfold Firestore.queryRoomsDesc.
    eapply Sorted_ind with (R := inOrder Firestore.room_createdAt Z.geb).
    + constructor.
    + intros a l _ IH Hd. constructor; [assumption|].
      destruct Hd as [|b l' Hb]; constructor.
      unfold inOrder in Hb. rewrite Z.geb_leb in Hb. now apply Z.leb_le.
    + apply orderBy_sorted. intros a b H.
      rewrite Z.geb_leb in *. apply Z.leb_gt in H. apply Z.leb_le. lia.
Qed.

Lemma roomOf_sorted (docs : list Firestore.RoomDoc) :
  StronglySorted
    (fun a b => (Firestore.room_createdAt b <= Firestore.room_createdAt a)%Z) docs ->
  StronglySorted (fun a b => (Room.createdAt b <= Room.createdAt a)%Z) (map roomOf docs).
Proof.
  induction 1 as [|d ds _ IH Hd]; simpl; constructor; [assumption|].
  rewrite Forall_map. exact Hd.
Qed.

Lemma served_rooms (s : App) (h : N) (l : Listener) :
  listenerOf h s = Some l ->
  target l = RoomsDesc ->
  react (SnapshotArrives h) s
  = exec (setRooms (map roomOf (Firestore.queryRoomsDesc (store (world s))))) s.
Proof.
  intros Hl Hq.
  assert (H : serve h s
              = setRooms (map roomOf (Firestore.queryRoomsDesc (store (world s)))) s).
  { unfold serve, bind, gets. cbv beta iota. rewrite Hl, Hq. reflexivity. }
  unfold react, handler. unfold exec at 2. rewrite H.
  change (context s) with
    (context (snd (setRooms (map roomOf (Firestore.queryRoomsDesc (store (world s)))) s))).
  unfold exec at 1. now rewrite commit_unchanged.
Qed.

(** The list of the room directory.  When the store serves the listener
    of the room collection, the list is replaced by the snapshot: it holds
    exactly the rooms of the store, newest first, whatever it held
    before; the view of the messages, the selection and the dialog are
    left as they are. *)
Theorem snapshot_replaces_room_list (s : App) (h : N) (l : Listener) :
  listenerOf h s = Some l ->
  target l = RoomsDesc ->
  let stored := Firestore.rooms (store (world s)) in
  let s' := react (SnapshotArrives h) s in
  List.length (rooms (sidebar s')) = List.length stored
  /\ Permutation (map roomOf stored) (rooms (sidebar s'))
  /\ StronglySorted (fun a b => (Room.createdAt b <= Room.createdAt a)%Z) (rooms (sidebar s'))
  /\ (forall old, rooms (sidebar (react (SnapshotArrives h) (exec (setRooms old) s)))
                  = rooms (sidebar s'))
  /\ chat s' = chat s /\ context s' = context s
  /\ newRoomName (sidebar s') = newRoomName (sidebar s)
  /\ isModalOpen (sidebar s') = isModalOpen (sidebar s).
Proof.
  intros Hl Hq. cbv zeta. rewrite (served_rooms s h Hl Hq).
  split; [|split; [|split; [|split]]].
  - cbn. rewrite length_map. apply orderBy_length.
  - cbn. apply Permutation_map, orderBy_perm.
  - cbn. apply roomOf_sorted, queryRoomsDesc_sorted.
  - intros old. now rewrite (served_rooms (exec (setRooms old) s) h (l := l)).
  - repeat split.
Qed.

(** A created room gets listed.  After a create with a fresh name that
    the store accepts, the next snapshot served to the directory shows a
    room of that name, and one room more than the store held. *)
Theorem created_room_is_listed (s : App) (h : N) (l : Listener) :
  let name := newRoomName (sidebar s) in
  let w := world s in
  listenerOf h s = Some l ->
  target l = RoomsDesc ->
  trim name <> [] ->
  hd false (faults w) = false ->
  nth 1 (faults w) false = false ->
  Firestore.queryRoomsWhereName (trim name) (store w) = [] ->
  let s' := run [CreateClicked; SnapshotArrives h] s in
  In name (map Room.name (rooms (sidebar s')))
  /\ List.length (rooms (sidebar s')) = S (List.length (Firestore.rooms (store w))).
Proof.
  cbv zeta. intros Hl Hq Ht Hf0 Hf1 Hn.
  destruct (create_writes_untrimmed_name s Ht Hf0 Hf1 Hn) as (Hd & _).
  destruct (create_outcomes s) as (_ & Hc & _ & _ & _ & _ & Hls & _).
  set (s1 := exec Sidebar.handleCreateRoom s) in *.
  assert (Hr : react CreateClicked s = s1).
  { unfold react. cbn [handler]. fold s1. rewrite <- Hc. unfold exec.
    now rewrite commit_unchanged. }
  assert (Hl1 : listenerOf h s1 = Some l).
  { unfold listenerOf in *. now rewrite Hls. }
  unfold run. cbn [fold_left]. rewrite Hr, (served_rooms s1 h Hl1 Hq). cbn.
  unfold Firestore.queryRoomsDesc. rewrite Hd. split.
  - rewrite map_map. apply in_map_iff.
    eexists. split; [|eapply Permutation_in; [apply orderBy_perm|];
                       apply in_or_app; right; now left].
    reflexivity.
  - rewrite length_map, orderBy_length, length_app. simpl. lia.
Qed.

(** ** Further properties of the reply dispatcher *)

(** The messages a send stores are appended, at most two of them, under
    the selected room; and the rooms are left alone. *)
Lemma deliver_appends (text : jsstring) (s : App) :
  let s' := exec (Chat.deliver text) s in
  Firestore.rooms (store (world s')) = Firestore.rooms (store (world s))
  /\ exists added,
       Firestore.massages (store (world s')) = Firestore.massages (store (world s)) ++ added
       /\ (List.length added <= 2)%nat
       /\ Forall (fun d => Firestore.massage_room d = nonNull (selectedRoom (context s)))
            added.
Proof.
  open_state s. open_world w. unfold_send.
  split_cases; cbn; (split; [reflexivity|]).
  all: try (exists []; rewrite app_nil_r; repeat split; [cbn; lia|constructor]).
  all: try (eexists [_]; repeat split; [cbn; lia|repeat constructor]).
  all: eexists [_; _]; rewrite <- app_assoc; repeat split; [cbn; lia|repeat constructor].
Qed.

(** The requests of a send, in order: the write of the human message,
    then at most one request to the endpoint, then at most two writes of
    an assistant message, the apology coming last when it is written. *)
Lemma deliver_requests (text : jsstring) (s : App) :
  let room := nonNull (selectedRoom (context s)) in
  let human := AddMassage room (JStr text) user_sender in
  let apology := AddMassage room (JStr Strings.apology) bot_sender in
  exists tail,
    issued (world (exec (Chat.deliver text) s)) = issued (world s) ++ human :: tail
    /\ (tail = []
        \/ tail = [PostApiChat text; apology]
        \/ (exists v, tail = [PostApiChat text; AddMassage room v bot_sender])
        \/ (exists v, tail = [PostApiChat text; AddMassage room v bot_sender; apology])).
Proof.
  open_state s. open_world w. unfold_send.
  split_cases; cbn; rewrite <- ?app_assoc; cbn; eexists; (split; [reflexivity|]).
  all: first [ left; reflexivity
             | right; left; reflexivity
             | right; right; left; eexists; reflexivity
             | right; right; right; eexists; reflexivity ].
Qed.

(** What the SDK refuses of an object: an empty or a reserved field
    name makes the whole value unusable, whatever the field holds. *)
Lemma validField_refuses_names (k : jsstring) (v : JsValue)
    (rest : list (jsstring * JsValue)) :
  k = [] \/ Firestore.reservedName k = true ->
  Firestore.validField (JObj ((k, v) :: rest)) = false.
Proof.
  intros [->|Hr]; cbn; [reflexivity|].
  unfold Firestore.validName. now rewrite Hr, andb_false_r.
Qed.


(** No retry.  A send that passes the guard first writes the human
    message, calls the endpoint at most once, and only after that write,
    and writes at most two assistant messages, of which the apology is
    the last. *)
Theorem send_requests_in_order (s : App) :
  Chat.refuses s = false ->
  let room := nonNull (selectedRoom (context s)) in
  let text := inputMessage (chat s) in
  let human := AddMassage room (JStr text) user_sender in
  let apology := AddMassage room (JStr Strings.apology) bot_sender in
  exists tail,
    issued (world (exec Chat.sendMessage s)) = issued (world s) ++ human :: tail
    /\ (tail = []
        \/ tail = [PostApiChat text; apology]
        \/ (exists v, tail = [PostApiChat text; AddMassage room v bot_sender])
        \/ (exists v, tail = [PostApiChat text; AddMassage room v bot_sender; apology])).
Proof.
  intros Hg. cbv zeta. unfold exec. rewrite (sendMessage_passes s Hg).
  exact (deliver_requests (inputMessage (chat s)) (exec (setInputMessage []) s)).
Qed.

Lemma commit_world (c : AppContextType) (s : App) :
  store (world (exec (React.commit c) s)) = store (world s).
Proof.
  open_state s.
  unfold exec, React.commit, bind, gets. cbv beta iota. cbn [context].
  destruct (React.sidebarDepsChanged c _), (React.chatDepsChanged c _).
  all: unfold_async; cbn.
  all: destruct u as [u|], sc as [h1|], cc as [h2|]; cbn; auto.
  all: repeat (match goal with
               | |- context [truthy_str ?x] => destruct (truthy_str x)
               end; cbn); auto.
Qed.

Lemma handler_appends (e : Event) (s : App) :
  exists added,
    Firestore.massages (store (world (exec (handler e) s)))
    = Firestore.massages (store (world s)) ++ added
    /\ (List.length added <= 2)%nat
    /\ (added <> [] -> e = SendClicked)
    /\ Forall (fun d => Firestore.massage_room d = nonNull (selectedRoom (context s)))
         added.
Proof.
  assert (Hnone : forall s', Firestore.massages (store (world s'))
                             = Firestore.massages (store (world s)) ->
            exists added,
              Firestore.massages (store (world s'))
              = Firestore.massages (store (world s)) ++ added
              /\ (List.length added <= 2)%nat
              /\ (added <> [] -> e = SendClicked)
              /\ Forall (fun d => Firestore.massage_room d
                                  = nonNull (selectedRoom (context s))) added).
  { intros s' H. exists []. rewrite app_nil_r.
    split; [exact H|split; [simpl; lia|split; [intros Hne; now elim Hne|constructor]]]. }
  destruct e as [nu|k|k cf| |v| | |v| |h|h]; cbn [handler].
  - apply Hnone. reflexivity.
  - apply Hnone. unfold exec, bind, gets. cbv beta iota.
    destruct (nth_error (rooms (sidebar s)) k); reflexivity.
  - apply Hnone. unfold exec, bind, gets. cbv beta iota.
    destruct (nth_error (rooms (sidebar s)) k) as [room|]; [|reflexivity].
    destruct (delete_outcomes (Room.id room) cf s) as (_ & _ & _ & _ & _ & Hm & _).
    exact Hm.
  - apply Hnone. reflexivity.
  - apply Hnone. reflexivity.
  - apply Hnone. reflexivity.
  - apply Hnone. destruct (create_outcomes s) as (_ & _ & _ & _ & _ & Hm & _). exact Hm.
  - apply Hnone. reflexivity.
  - destruct (Chat.refuses s) eqn:Hg; unfold exec.
    + rewrite (sendMessage_refused s Hg). apply (Hnone s). reflexivity.
    + rewrite (sendMessage_passes s Hg).
      destruct (deliver_appends (inputMessage (chat s)) (exec (setInputMessage []) s))
        as (_ & added & Ha & Hl & Hf).
      exists added. split; [exact Ha|split; [exact Hl|split; [reflexivity|exact Hf]]].
  - apply Hnone. unfold exec, serve, bind, gets. cbv beta iota.
    destruct (listenerOf h s) as [l|]; [|reflexivity]. destruct (target l); reflexivity.
  - apply Hnone. unfold exec, serveError, bind, gets. cbv beta iota.
    destruct (listenerOf h s) as [l|]; [|reflexivity]. destruct (target l); reflexivity.
Qed.

(** The log is append-only.  No event removes or rewrites a stored
    message: after any event the stored messages are the ones before,
    followed by at most two new ones; only a send adds any, and it adds
    them under the room that is selected. *)
Theorem messages_are_append_only (e : Event) (s : App) :
  exists added,
    Firestore.massages (store (world (react e s)))
    = Firestore.massages (store (world s)) ++ added
    /\ (List.length added <= 2)%nat
    /\ (added <> [] -> e = SendClicked)
    /\ Forall (fun d => Firestore.massage_room d = nonNull (selectedRoom (context s)))
         added.
Proof.
  unfold react. rewrite commit_world. apply handler_appends.
Qed.

(** ** Further properties of the completion endpoint *)

(** What the route does besides answering.  It leaves the key and the
    upstream as they are, and writes to the console exactly when it
    answers 500.  It calls the completion API exactly when the body is
    JSON whose [message] is a non-empty string and there is a key: it
    then calls it once, the sole content being that very message, and
    does not answer 400.  In every other case, those of a 400 among
    them, it calls nothing. *)
Theorem POST_side_effects (req : Route.NextRequest) (sv : Route.Server) :
  exists resp,
    Route.POST req sv = (Fulfilled resp, snd (Route.POST req sv))
    /\ Route.apiKey (snd (Route.POST req sv)) = Route.apiKey sv
    /\ Route.upstream (snd (Route.POST req sv)) = Route.upstream sv
    /\ ((Route.status resp = 500%Z
         /\ exists e, Route.errors (snd (Route.POST req sv)) = Route.errors sv ++ [e])
        \/ ((Route.status resp = 200%Z \/ Route.status resp = 400%Z)
            /\ Route.errors (snd (Route.POST req sv)) = Route.errors sv))
    /\ ((exists v m key,
           Route.body req = Some v
           /\ getProperty v (lit "message") = inr (JStr m) /\ m <> []
           /\ Route.apiKey sv = Some key
           /\ Route.sent (snd (Route.POST req sv)) = Route.sent sv ++ [JStr m]
           /\ Route.status resp <> 400%Z)
        \/ (Route.sent (snd (Route.POST req sv)) = Route.sent sv
            /\ (Route.body req = None
                \/ (exists v, Route.body req = Some v
                              /\ getProperty v (lit "message") = inl TypeError)
                \/ (exists v x, Route.body req = Some v
                                /\ getProperty v (lit "message") = inr x
                                /\ ((forall m, x <> JStr m) \/ x = JStr [])
                                /\ Route.status resp = 400%Z)
                \/ Route.apiKey sv = None))).
Proof.
  destruct req as [[v|]], sv as [key up snt errs]; unfold_route; cbn.
  2: { eexists; repeat split; [left; split; [reflexivity|eexists; reflexivity]|].
       right. split; [reflexivity|now left]. }
  destruct (getProperty v _) as [e|x] eqn:Hp; cbn.
  { assert (He : e = TypeError).
    { destruct v; cbn in Hp; try discriminate; try congruence.
      all: try (destruct (lookup _ _); discriminate). }
    subst e.
    eexists; repeat split; [left; split; [reflexivity|eexists; reflexivity]|].
    right. split; [reflexivity|]. right; left. now exists v. }
  destruct x as [| |b|n|m|items|props].
  1-4, 6-7: cbn; rewrite ?orb_true_r; cbn; eexists; repeat split;
    [right; split; [now right|reflexivity]|];
    right; (split; [reflexivity|]); right; right; left;
    eexists v, _; repeat split; try eassumption; left; intros m; discriminate.
  destruct m as [|c0 m].
  { cbn. eexists; repeat split; [right; split; [now right|reflexivity]|].
    right. split; [reflexivity|]. right; right; left.
    eexists v, _; repeat split; try eassumption. now right. }
  cbn [truthy typeof jseqb lit negb orb N.eqb andb]. cbn.
  destruct key as [key|]; cbn.
  2: { eexists; repeat split; [left; split; [reflexivity|eexists; reflexivity]|].
       right. split; [reflexivity|]. now repeat right. }
  destruct up as [[|c rest]|]; cbn.
  1, 3: eexists; repeat split;
    [left; split; [reflexivity|eexists; reflexivity]
    |left; eexists v, _, key; repeat split; try eassumption; discriminate].
  destruct c as [[[[[|t0 t]|]]|]]; cbn.
  all: eexists; repeat split;
    [right; split; [now left|reflexivity]
    |left; eexists v, _, key; repeat split; try eassumption; discriminate].
Qed.

Lemma passes_text_nonempty (s : App) :
  Chat.refuses s = false -> inputMessage (chat s) <> [].
Proof.
  unfold Chat.refuses. intros Hg Hn. rewrite Hn in Hg. cbn in Hg.
  now rewrite !orb_true_r in Hg.
Qed.

(** The client and the route together.  When a send that passes the
    guard reaches the route and the store accepts the writes, the route
    never answers 400: either it answers 200 and the log gains the human
    message followed by the text of the route's answer, or it answers 500
    and the log gains the human message followed by the apology. *)
Theorem send_through_the_route (s : App) (sv : Route.Server) (rest : list FetchReply) :
  Chat.refuses s = false ->
  replies (world s) = endpoint sv (inputMessage (chat s)) :: rest ->
  hd false (faults (world s)) = false ->
  nth 1 (faults (world s)) false = false ->
  let w := world s in
  let room := nonNull (selectedRoom (context s)) in
  let text := inputMessage (chat s) in
  let log := Firestore.massages (store (world (exec Chat.sendMessage s))) in
  exists resp,
    fst (Route.POST (requestOf text) sv) = Fulfilled resp
    /\ ((Route.status resp = 200%Z
         /\ exists t, Route.payload resp = JObj [(lit "response", JStr t)]
                      /\ log = Firestore.massages (store w)
                               ++ [humanDoc room text w; botDoc room (JStr t) w 1])
        \/ (Route.status resp = 500%Z
            /\ log = Firestore.massages (store w)
                     ++ [humanDoc room text w;
                         botDoc room (JStr Strings.apology) w 1])).
Proof.
  intros Hg Hr Hf0 Hf1. cbv zeta.
  pose proof (passes_text_nonempty s Hg) as Hne.
  unfold exec. rewrite (sendMessage_passes s Hg).
  set (s0 := exec (setInputMessage []) s).
  set (text := inputMessage (chat s)) in *.
  assert (Hfail : forall r, replies (world s0) = Responds r :: rest -> ok r = false ->
            Firestore.massages (store (world (snd (Chat.deliver text s0))))
            = Firestore.massages (store (world s))
              ++ [humanDoc (nonNull (selectedRoom (context s))) text (world s);
                  botDoc (nonNull (selectedRoom (context s))) (JStr Strings.apology)
                         (world s) 1]).
  { intros r Hrr Hok.
    destruct (deliver_completion_fails text s0 Hf0 (NonSuccess (world s0) Hrr Hok))
      as (_ & Hacc & _).
    exact (Hacc Hf1). }
  assert (Hgood : forall r t, replies (world s0) = Responds r :: rest -> ok r = true ->
            json r = Some (JObj [(lit "response", JStr t)]) ->
            Firestore.massages (store (world (snd (Chat.deliver text s0))))
            = Firestore.massages (store (world s))
              ++ [humanDoc (nonNull (selectedRoom (context s))) text (world s);
                  botDoc (nonNull (selectedRoom (context s))) (JStr t) (world s) 1]).
  { intros r t Hrr Hok Hj.
    destruct (deliver_completion_succeeds text s0 (r := r) (rest := rest)
                (v := JObj [(lit "response", JStr t)]) (x := JStr t) Hf0 Hf1 Hrr Hok Hj
                eq_refl eq_refl) as (Hm & _).
    exact Hm. }
  change (replies (world s)) with (replies (world s0)) in Hr.
  clearbody s0.
  destruct text as [|c0 m]; [now elim Hne|].
  unfold endpoint, requestOf in Hr. unfold requestOf.
  destruct sv as [key up snt errs]. unfold_route. cbn in Hr |- *.
  destruct key as [key|]; cbn in Hr |- *.
  2: { eexists; split; [reflexivity|]. right. split; [reflexivity|].
       eapply Hfail; [exact Hr|reflexivity]. }
  destruct up as [[|c rest']|]; cbn in Hr |- *.
  1, 3: eexists; (split; [reflexivity|]); right; (split; [reflexivity|]);
    (eapply Hfail; [exact Hr|reflexivity]).
  destruct c as [[[[[|t0 t]|]]|]]; cbn in Hr |- *.
  all: eexists; (split; [reflexivity|]); left; (split; [reflexivity|]);
    eexists; (split; [reflexivity|]);
    (eapply Hgood; [exact Hr|reflexivity|reflexivity]).
Qed.

(** ** The email pattern *)

Section PatternFacts.
Import Pattern.

Lemma nullable_matches (r : Regex) : nullable r = true <-> Matches r [].
Proof.
  induction r as [| |p|a IHa b IHb|a IHa b IHb|a IHa]; simpl.
  - split; [discriminate|]. intros H. inversion H.
  - split; [constructor|reflexivity].
  - split; [discriminate|]. intros H. inversion H.
  - rewrite andb_true_iff, IHa, IHb. split.
    + intros (Ha & Hb). exact (MSeq Ha Hb).
    + intros H. inversion H as [| |a' b' s t Hs Ht E1 E2| | | |].
      apply app_eq_nil in E2 as (-> & ->). now split.
  - rewrite orb_true_iff, IHa, IHb. split.
    + intros [H|H]; [now apply MAltL|now apply MAltR].
    + intros H. inversion H; auto.
  - split; [constructor|reflexivity].
Qed.

Lemma deriv_sound (c : N) (r : Regex) (s : jsstring) :
  Matches (deriv c r) s -> Matches r (c :: s).
Proof.
  revert s. induction r as [| |p|a IHa b IHb|a IHa b IHb|a IHa]; simpl; intros s H.
  - inversion H.
  - inversion H.
  - destruct (p c) eqn:E; inversion H. now constructor.
  - destruct (nullable a) eqn:Na.
    + inversion H as [| | |a' b' s' H1 E1 E2|a' b' s' H1 E1 E2| |]; subst.
      * inversion H1 as [| |a' b' s1 t1 Hs Ht E1 E2| | | |]; subst.
        exact (MSeq (IHa _ Hs) Ht).
      * apply nullable_matches in Na. exact (MSeq Na (IHb _ H1)).
    + inversion H as [| |a' b' s1 t1 Hs Ht E1 E2| | | |]; subst.
      exact (MSeq (IHa _ Hs) Ht).
  - inversion H; subst; [apply MAltL|apply MAltR]; auto.
  - inversion H as [| |a' b' s1 t1 Hs Ht E1 E2| | | |]; subst.
    exact (MStarCons (IHa _ Hs) Ht).
Qed.

Lemma deriv_complete (c : N) (r : Regex) (s : jsstring) :
  Matches r (c :: s) -> Matches (deriv c r) s.
Proof.
  intros H. remember (c :: s) as cs eqn:E. revert c s E.
  induction H as [|p x Hp|a b s1 t1 H1 IH1 H2 IH2|a b s1 H1 IH1|a b s1 H1 IH1
                  |a|a s1 t1 H1 IH1 H2 IH2]; intros c s E; simpl.
  - discriminate.
  - injection E as -> <-. rewrite Hp. constructor.
  - destruct s1 as [|x s1'].
    + simpl in E. subst t1. apply nullable_matches in H1. rewrite H1.
      apply MAltR. now apply IH2.
    + injection E as -> <-.
      destruct (nullable a); [apply MAltL|]; exact (MSeq (IH1 _ _ eq_refl) H2).
  - apply MAltL. now apply IH1.
  - apply MAltR. now apply IH1.
  - discriminate.
  - destruct s1 as [|x s1'].
    + simpl in E. now apply IH2.
    + injection E as -> <-. exact (MSeq (IH1 _ _ eq_refl) H2).
Qed.

(** The test by derivatives decides the language. *)
Lemma test_matches (r : Regex) (s : jsstring) : test r s = true <-> Matches r s.
Proof.
  revert r. induction s as [|c s IH]; intros r; simpl.
  - apply nullable_matches.
  - rewrite IH. split; [apply deriv_sound|apply deriv_complete].
Qed.

Lemma matches_class (p : N -> bool) (s : jsstring) :
  Matches (Class p) s <-> exists c, s = [c] /\ p c = true.
Proof.
  split.
  - intros H. inversion H; subst. eauto.
  - intros (c & -> & H). now constructor.
Qed.

Lemma matches_star_class (p : N -> bool) (s : jsstring) :
  Matches (Star (Class p)) s <-> forallb p s = true.
Proof.
  split.
  - intros H. remember (Star (Class p)) as r eqn:E.
    induction H as [| | | | | |a s1 t1 H1 _ H2 IH2]; try discriminate; [reflexivity|].
    injection E as ->. rewrite forallb_app, (IH2 eq_refl), andb_true_r.
    apply matches_class in H1 as (c & -> & Hc). simpl. now rewrite Hc.
  - induction s as [|c s IH]; simpl; [constructor|].
    intros H. apply andb_true_iff in H as (Hc & Hs).
    exact (MStarCons (MClass p c Hc) (IH Hs)).
Qed.

Lemma matches_seq (a b : Regex) (s : jsstring) :
  Matches (Seq a b) s <-> exists s1 s2, s = s1 ++ s2 /\ Matches a s1 /\ Matches b s2.
Proof.
  split.
  - intros H. inversion H; subst. eauto.
  - intros (s1 & s2 & -> & H1 & H2). now constructor.
Qed.

Lemma matches_plus_class (p : N -> bool) (s : jsstring) :
  Matches (Plus (Class p)) s <-> s <> [] /\ forallb p s = true.
Proof.
  unfold Plus. rewrite matches_seq. split.
  - intros (s1 & s2 & -> & H1 & H2).
    apply matches_class in H1 as (c & -> & Hc). apply matches_star_class in H2.
    split; [discriminate|]. simpl. now rewrite Hc.
  - intros (Hne & H). destruct s as [|c s]; [now elim Hne|].
    simpl in H. apply andb_true_iff in H as (Hc & Hs).
    exists [c], s. split; [reflexivity|]. split; [now constructor|].
    now apply matches_star_class.
Qed.

Lemma matches_atleast2_class (p : N -> bool) (s : jsstring) :
  Matches (AtLeast2 (Class p)) s <-> (2 <= List.length s)%nat /\ forallb p s = true.
Proof.
  unfold AtLeast2. rewrite matches_seq. split.
  - intros (s1 & s2 & -> & H1 & H2).
    apply matches_class in H1 as (c & -> & Hc).
    apply matches_seq in H2 as (s3 & s4 & -> & H3 & H4).
    apply matches_class in H3 as (c' & -> & Hc'). apply matches_star_class in H4.
    simpl. rewrite Hc, Hc'. split; [lia|assumption].
  - intros (Hl & H). destruct s as [|c [|c' s]]; simpl in Hl; try lia.
    simpl in H. apply andb_true_iff in H as (Hc & H).
    apply andb_true_iff in H as (Hc' & Hs).
    exists [c], (c' :: s). split; [reflexivity|]. split; [now constructor|].
    change (c' :: s) with ([c'] ++ s). constructor; [now constructor|].
    now apply matches_star_class.
Qed.

Lemma email_shape_of_test (s : jsstring) : test email s = true -> AddressShape s.
Proof.
  rewrite test_matches. unfold email, AddressShape. intros H.
  apply matches_seq in H as (l & r1 & -> & Hl & H).
  apply matches_seq in H as (a & r2 & -> & Ha & H).
  apply matches_seq in H as (d & r3 & -> & Hd & H).
  apply matches_seq in H as (p & t & -> & Hp & Ht).
  apply matches_plus_class in Hl as (Hl1 & Hl2).
  apply matches_class in Ha as (c & -> & Hc). apply N.eqb_eq in Hc. subst c.
  apply matches_plus_class in Hd as (Hd1 & Hd2).
  apply matches_class in Hp as (c & -> & Hc). apply N.eqb_eq in Hc. subst c.
  apply matches_atleast2_class in Ht as (Ht1 & Ht2).
  exists l, d, t. repeat split; assumption.
Qed.

Lemma email_test_of_shape (s : jsstring) : AddressShape s -> test email s = true.
Proof.
  rewrite test_matches. unfold email, AddressShape.
  intros (l & d & t & -> & Hl1 & Hl2 & Hd1 & Hd2 & Ht1 & Ht2).
  constructor; [now apply matches_plus_class|].
  constructor; [now constructor|].
  constructor; [now apply matches_plus_class|].
  constructor; [now constructor|].
  now apply matches_atleast2_class.
Qed.

(** The strings the pattern lets through, spelled out: a non-empty
    local part of letters, digits and [._%+-], one [@], a non-empty
    domain of letters, digits, dots and hyphens, a dot, and a final label
    of at least two letters. *)
Theorem email_pattern_shape (s : jsstring) :
  test email s = true <-> AddressShape s.
Proof.
  split; [apply email_shape_of_test|].
  rewrite test_matches. unfold email, AddressShape.
  intros (l & d & t & -> & Hl1 & Hl2 & Hd1 & Hd2 & Ht1 & Ht2).
  constructor; [now apply matches_plus_class|].
  constructor; [now constructor|].
  constructor; [now apply matches_plus_class|].
  constructor; [now constructor|].
  now apply matches_atleast2_class.
Qed.

Lemma local_unit (c : N) :
  localClass c = true -> c <> 64%N /\ (c <? 128)%N = true /\ isWhiteSpace c = false.
Proof.
  unfold localClass, letter, digit. intros H.
  repeat (rewrite orb_true_iff in H || rewrite andb_true_iff in H).
  repeat rewrite N.leb_le in H. repeat rewrite N.eqb_eq in H.
  split; [lia|]. split; [apply N.ltb_lt; lia|].
  destruct (isWhiteSpace c) eqn:E; [|reflexivity]. unfold isWhiteSpace in E.
  repeat (rewrite orb_true_iff in E || rewrite andb_true_iff in E).
  repeat rewrite N.leb_le in E. repeat rewrite N.eqb_eq in E. lia.
Qed.

Lemma domain_is_local (c : N) : domainClass c = true -> localClass c = true.
Proof.
  unfold domainClass, localClass. intros H.
  repeat rewrite orb_true_iff in *. tauto.
Qed.

Lemma letter_is_local (c : N) : letter c = true -> localClass c = true.
Proof. unfold localClass. intros ->. reflexivity. Qed.

Lemma forallb_impl (p q : N -> bool) (s : jsstring) :
  (forall c, p c = true -> q c = true) -> forallb p s = true -> forallb q s = true.
Proof.
  intros Hpq. induction s as [|c s IH]; simpl; [reflexivity|].
  intros H. apply andb_true_iff in H as (Hc & Hs). now rewrite (Hpq c Hc), IH.
Qed.

Lemma local_run (s : jsstring) :
  forallb localClass s = true ->
  count_occ N.eq_dec s 64%N = 0%nat
  /\ forallb (fun c => (c <? 128)%N) s = true
  /\ forallb (fun c => negb (isWhiteSpace c)) s = true.
Proof.
  induction s as [|c s IH]; simpl; [auto|].
  intros H. apply andb_true_iff in H as (Hc & Hs).
  destruct (local_unit c Hc) as (H1 & H2 & H3). destruct (IH Hs) as (I1 & I2 & I3).
  rewrite H2, H3, I2, I3. simpl. repeat split.
  destruct (N.eq_dec c 64); [contradiction|exact I1].
Qed.

(** What every accepted address has: exactly one [@], at least six code
    units, only ASCII code units, and no white space anywhere, so that
    trimming it changes nothing. *)
Theorem accepted_address_facts (s : jsstring) :
  test email s = true ->
  count_occ N.eq_dec s 64%N = 1%nat
  /\ (6 <= List.length s)%nat
  /\ forallb (fun c => (c <? 128)%N) s = true
  /\ forallb (fun c => negb (isWhiteSpace c)) s = true.
Proof.
  intros H. apply email_shape_of_test in H
    as (l & d & t & -> & Hl1 & Hl2 & Hd1 & Hd2 & Ht1 & Ht2).
  apply (forallb_impl _ _ _ domain_is_local) in Hd2.
  apply (forallb_impl _ _ _ letter_is_local) in Ht2.
  destruct (local_run l Hl2) as (L1 & L2 & L3).
  destruct (local_run d Hd2) as (D1 & D2 & D3).
  destruct (local_run t Ht2) as (T1 & T2 & T3).
  repeat split.
  - rewrite !count_occ_app, L1, D1, T1. reflexivity.
  - rewrite !length_app. simpl.
    destruct l; [now elim Hl1|]. destruct d; [now elim Hd1|]. simpl. lia.
  - rewrite !forallb_app, L2, D2, T2. reflexivity.
  - rewrite !forallb_app, L3, D3, T3. reflexivity.
Qed.

End PatternFacts.

(** ** The credential forms *)

Ltac unfold_form :=
  unfold Login.submit, Login.onSubmit, Register.submit, Register.onSubmit,
    AuthForm.setError, AuthForm.routerPush, AuthForm.call, exec, bind, modify, ret.

(** A login attempt.  [onSubmit] never throws and always sends the
    credentials as given.  When the provider resolves, it pushes [/] and
    the error slot is empty, whatever it held.  When the provider
    rejects, nothing is pushed and the slot holds one of three fixed,
    non-empty messages: the same one for an unknown user, a wrong
    password and an invalid credential, another for an invalid email,
    the generic one for every other code. *)
Theorem login_attempt_outcomes (data : Login.LoginFormData) (s : AuthForm.t) :
  let s' := exec (Login.onSubmit data) s in
  fst (Login.onSubmit data s) = Fulfilled tt
  /\ AuthForm.asked s'
     = AuthForm.asked s ++ [(Login.email data, Login.password data)]
  /\ AuthForm.answers s' = tl (AuthForm.answers s)
  /\ ((hd AuthForm.Resolves (AuthForm.answers s) = AuthForm.Resolves
       /\ AuthForm.pushed s' = AuthForm.pushed s ++ [lit "/"]
       /\ AuthForm.error s' = [])
      \/ (exists code,
            hd AuthForm.Resolves (AuthForm.answers s) = AuthForm.Rejects code
            /\ AuthForm.pushed s' = AuthForm.pushed s
            /\ AuthForm.error s' <> []
            /\ AuthForm.error s'
               = if AuthForm.codeIs code "auth/user-not-found"
                    || AuthForm.codeIs code "auth/wrong-password"
                    || AuthForm.codeIs code "auth/invalid-credential"
                 then Login.bad_credentials
                 else if AuthForm.codeIs code "auth/invalid-email"
                      then AuthForm.invalid_email
                      else Login.login_failed)).
Proof.
  destruct s as [err psh ask [|[|code] ans]]; unfold_form; cbn.
  1, 2: repeat split; left; repeat split.
  destruct (AuthForm.codeIs code "auth/user-not-found") eqn:E1,
    (AuthForm.codeIs code "auth/wrong-password") eqn:E2,
    (AuthForm.codeIs code "auth/invalid-email") eqn:E3,
    (AuthForm.codeIs code "auth/invalid-credential") eqn:E4; cbn.
  all: repeat split; right; exists code; rewrite ?E1, ?E2, ?E3, ?E4; cbn;
    repeat split; try discriminate.
  exfalso. destruct code; try discriminate. unfold AuthForm.codeIs in E3, E4.
  apply jseqb_eq in E3, E4. rewrite E3 in E4. vm_compute in E4. discriminate.
Qed.

(** The two rules that decide: the rule [required] of either field adds
    nothing to the pattern and to the minimal length. *)
Lemma login_valid_iff (data : Login.LoginFormData) :
  Login.valid data = true
  <-> AddressShape (Login.email data) /\ (6 <= List.length (Login.password data))%nat.
Proof.
  unfold Login.valid, AuthForm.required, AuthForm.minLength.
  rewrite !andb_true_iff, Nat.leb_le. split.
  - intros (((_ & Hpat) & _) & Hlen). split; [now apply email_shape_of_test|exact Hlen].
  - intros (Hshape & Hlen). repeat split.
    + destruct Hshape as (l & d & t & -> & Hl & _). destruct l; [contradiction|reflexivity].
    + now apply email_test_of_shape.
    + destruct (Login.password data); [simpl in Hlen; lia|reflexivity].
    + exact Hlen.
Qed.

(** What the login form sends.  A submit calls the provider exactly when
    the email has the shape of the pattern and the password has at least
    six code units, and it then sends that one pair.  Otherwise
    [onSubmit] is not run: nothing is sent, nothing is pushed, and the
    message that [onSubmit] sets is left as it was.  The messages the
    form library shows under the two fields are its own and are not part
    of this state. *)
Theorem login_sends_only_valid_credentials (data : Login.LoginFormData) (s : AuthForm.t) :
  let s' := exec (Login.submit data) s in
  let acceptable :=
    AddressShape (Login.email data) /\ (6 <= List.length (Login.password data))%nat in
  (acceptable
   /\ AuthForm.asked s'
      = AuthForm.asked s ++ [(Login.email data, Login.password data)])
  \/ (~ acceptable
      /\ AuthForm.asked s' = AuthForm.asked s
      /\ AuthForm.pushed s' = AuthForm.pushed s
      /\ AuthForm.error s' = AuthForm.error s).
Proof.
  cbv zeta. unfold Login.submit.
  destruct (Login.valid data) eqn:Hv.
  - left. split; [now apply login_valid_iff|].
    destruct s as [err psh ask [|[|code] ans]]; unfold_form; cbn; try reflexivity.
    repeat (match goal with
            | |- context [if ?b then _ else _] => destruct b
            end; cbn); reflexivity.
  - right. split; [|now repeat split].
    intros Ha. apply login_valid_iff in Ha. rewrite Ha in Hv. discriminate.
Qed.

(** A registration attempt.  [onSubmit] never throws and always sends
    the email and the password.  When the provider resolves, it pushes
    [/] and the error slot is empty; when it rejects, nothing is pushed
    and the slot holds one of four fixed, non-empty messages chosen by
    the code alone. *)
Theorem register_attempt_outcomes (data : Register.RegisterFormData) (s : AuthForm.t) :
  let s' := exec (Register.onSubmit data) s in
  fst (Register.onSubmit data s) = Fulfilled tt
  /\ AuthForm.asked s'
     = AuthForm.asked s ++ [(Register.email data, Register.password data)]
  /\ ((hd AuthForm.Resolves (AuthForm.answers s) = AuthForm.Resolves
       /\ AuthForm.pushed s' = AuthForm.pushed s ++ [lit "/"]
       /\ AuthForm.error s' = [])
      \/ (exists code,
            hd AuthForm.Resolves (AuthForm.answers s) = AuthForm.Rejects code
            /\ AuthForm.pushed s' = AuthForm.pushed s
            /\ AuthForm.error s' <> []
            /\ AuthForm.error s'
               = if AuthForm.codeIs code "auth/email-already-in-use"
                 then Register.email_in_use
                 else if AuthForm.codeIs code "auth/weak-password"
                      then Register.weak_password
                      else if AuthForm.codeIs code "auth/invalid-email"
                           then AuthForm.invalid_email
                           else Register.register_failed)).
Proof.
  destruct s as [err psh ask [|[|code] ans]]; unfold_form; cbn.
  1, 2: repeat split; left; repeat split.
  destruct (AuthForm.codeIs code "auth/email-already-in-use") eqn:E1,
    (AuthForm.codeIs code "auth/weak-password") eqn:E2,
    (AuthForm.codeIs code "auth/invalid-email") eqn:E3; cbn.
  all: repeat split; right; exists code; rewrite ?E1, ?E2, ?E3; cbn;
    repeat split; discriminate.
Qed.

(** What the registration form sends.  A submit either sends nothing,
    which is what happens whenever a rule fails, or sends one pair whose
    email has the shape of the pattern and whose password has at least
    six code units and equals the confirmation. *)
Theorem register_sends_only_valid_credentials
    (data : Register.RegisterFormData) (s : AuthForm.t) :
  let s' := exec (Register.submit data) s in
  (Register.valid data = false /\ s' = s)
  \/ (Register.valid data = true
      /\ AuthForm.asked s'
         = AuthForm.asked s ++ [(Register.email data, Register.password data)]
      /\ AddressShape (Register.email data)
      /\ (6 <= List.length (Register.password data))%nat
      /\ Register.confirmPassword data = Register.password data).
Proof.
  cbv zeta. unfold Register.submit.
  destruct (Register.valid data) eqn:Hv; [right|now left].
  split; [reflexivity|].
  unfold Register.valid in Hv.
  apply andb_true_iff in Hv as (Hv & Hconf). apply andb_true_iff in Hv as (Hv & _).
  apply andb_true_iff in Hv as (Hv & Hlen). apply andb_true_iff in Hv as (Hv & _).
  apply andb_true_iff in Hv as (_ & Hpat).
  split; [|split; [|split]].
  - destruct s as [err psh ask [|[|code] ans]]; unfold_form; cbn; try reflexivity.
    repeat (match goal with
            | |- context [if ?b then _ else _] => destruct b
            end; cbn); reflexivity.
  - now apply email_shape_of_test.
  - unfold AuthForm.minLength in Hlen. now apply Nat.leb_le.
  - now apply jseqb_eq.
Qed.

(** ** The guard of the chat page *)

Lemma home_step (u : option User) (s : Home.t) :
  Home.loading s = negb (Home.authenticated s) ->
  Home.loading (Home.onAuthStateChanged u s)
  = negb (Home.authenticated (Home.onAuthStateChanged u s))
  /\ Home.authenticated (Home.onAuthStateChanged u s)
     = Home.authenticated s || truthy_obj u
  /\ Home.pushed (Home.onAuthStateChanged u s)
     = Home.pushed s ++ (if truthy_obj u then [] else [lit "/auth/login"]).
Proof.
  intros H. unfold Home.onAuthStateChanged.
  destruct (truthy_obj u); cbn.
  - rewrite orb_true_r, app_nil_r. auto.
  - rewrite orb_false_r. auto.
Qed.

Lemma home_fold (reports : list (option User)) (s : Home.t) :
  Home.loading s = negb (Home.authenticated s) ->
  let s' := fold_left (fun s u => Home.onAuthStateChanged u s) reports s in
  Home.loading s' = negb (Home.authenticated s')
  /\ Home.authenticated s' = Home.authenticated s || existsb truthy_obj reports
  /\ Home.pushed s'
     = Home.pushed s
       ++ map (fun _ => lit "/auth/login") (filter (fun u => negb (truthy_obj u)) reports).
Proof.
  revert s. induction reports as [|u us IH]; intros s H; simpl.
  - rewrite orb_false_r, app_nil_r. auto.
  - destruct (home_step u s H) as (H1 & H2 & H3).
    destruct (IH _ H1) as (I1 & I2 & I3). cbv zeta in I1, I2, I3.
    rewrite I1, I2, I3, H2, H3. repeat split.
    + now rewrite orb_assoc.
    + destruct (truthy_obj u); simpl; now rewrite <- app_assoc.
Qed.

(** The guard.  Whatever the provider has reported so far, the page
    shows the chat exactly when some report carried a user, shows the
    loading screen otherwise, and never returns nothing; it has pushed
    the login route once for every report without a user.  Once a user
    has been reported, later reports without one no longer hide the
    chat. *)
Theorem home_guard (reports : list (option User)) :
  let s := Home.after reports in
  Home.render s
  = (if existsb truthy_obj reports then Home.ChatPage else Home.LoadingScreen)
  /\ Home.pushed s
     = map (fun _ => lit "/auth/login") (filter (fun u => negb (truthy_obj u)) reports).
Proof.
  cbv zeta. unfold Home.after.
  destruct (home_fold reports Home.initial eq_refl) as (H1 & H2 & H3).
  cbv zeta in H1, H2, H3. split; [|exact H3].
  unfold Home.render. rewrite H1, H2. simpl.
  destruct (existsb truthy_obj reports); reflexivity.
Qed.

(** ** The room directory, whatever the store answers *)

(** A create never throws at its caller.  It leaves the selection, the
    chat component, the listed rooms, the stored messages and the
    listeners as they are, and the room collection either as it is or
    with exactly one room more, bearing the name as typed and the
    creating identity; in the latter case only is the dialog closed. *)
Theorem create_adds_at_most_one_room (s : App) :
  let s' := exec Sidebar.handleCreateRoom s in
  fst (Sidebar.handleCreateRoom s) = Fulfilled tt
  /\ context s' = context s /\ chat s' = chat s
  /\ rooms (sidebar s') = rooms (sidebar s)
  /\ Firestore.massages (store (world s')) = Firestore.massages (store (world s))
  /\ listeners (world s') = listeners (world s)
  /\ ((Firestore.rooms (store (world s')) = Firestore.rooms (store (world s))
       /\ isModalOpen (sidebar s') = isModalOpen (sidebar s))
      \/ (isModalOpen (sidebar s') = false
          /\ exists d, Firestore.rooms (store (world s'))
                       = Firestore.rooms (store (world s)) ++ [d]
                       /\ Firestore.room_name d = newRoomName (sidebar s)
                       /\ Firestore.room_createdBy d = userid (context s))).
Proof.
  cbv zeta.
  destruct (create_outcomes s) as (H1 & H2 & H3 & H4 & _ & H6 & H7 & _ & Hcase).
  repeat (split; [assumption|]).
  destruct Hcase as [(Hr & Hs)|(_ & _ & Hm & _ & _ & Hd)].
  - left. split; [exact Hr|]. destruct Hs as [Hs|(_ & _ & Hm)]; [now rewrite Hs|exact Hm].
  - right. now split.
Qed.

(** A delete never throws at its caller.  It sends at most the one
    request for the room document, leaves the stored messages, the
    listeners, the identity and both components' own state as they are,
    and does nothing at all when the user declines the dialog. *)
Theorem delete_sends_at_most_one_request (roomId : jsstring) (confirmed : bool) (s : App) :
  let s' := exec (Sidebar.handleDeleteRoom roomId confirmed) s in
  fst (Sidebar.handleDeleteRoom roomId confirmed s) = Fulfilled tt
  /\ chat s' = chat s /\ sidebar s' = sidebar s
  /\ user (context s') = user (context s) /\ userid (context s') = userid (context s)
  /\ Firestore.massages (store (world s')) = Firestore.massages (store (world s))
  /\ listeners (world s') = listeners (world s)
  /\ (issued (world s') = issued (world s)
      \/ issued (world s') = issued (world s) ++ [DeleteRoom roomId])
  /\ (confirmed = false -> s' = s).
Proof.
  cbv zeta.
  destruct (delete_outcomes roomId confirmed s)
    as (H1 & H2 & H3 & H4 & H5 & H6 & H7 & _ & H9 & H10 & _).
  repeat (split; [assumption|]). exact H9.
Qed.

(** ** Witnesses of the further properties *)

Lemma create_blank_name_is_noop_witness :
  let s := Session.naming (lit "  ") [] in
  trim (newRoomName (sidebar s)) = []
  /\ Sidebar.handleCreateRoom s = (Fulfilled tt, s)
  /\ react CreateClicked s = s.
Proof.
  cbv zeta.
  assert (Ht : trim (newRoomName (sidebar (Session.naming (lit "  ") []))) = [])
    by (vm_compute; reflexivity).
  exact (conj Ht (create_blank_name_is_noop (Session.naming (lit "  ") []) Ht)).
Defined.

Lemma create_fresh_name_witness :
  let s := Session.naming (lit "Demo") [] in
  (trim (newRoomName (sidebar s)) <> []
   /\ hd false (faults (world s)) = false
   /\ nth 1 (faults (world s)) false = false
   /\ Firestore.queryRoomsWhereName (trim (newRoomName (sidebar s))) (store (world s)) = [])
  /\ isModalOpen (sidebar s) = true
  /\ isModalOpen (sidebar (exec Sidebar.handleCreateRoom s)) = false
  /\ newRoomName (sidebar (exec Sidebar.handleCreateRoom s)) = [].
Proof.
  cbv zeta. set (s := Session.naming (lit "Demo") []).
  assert (Ht : trim (newRoomName (sidebar s)) <> []) by (vm_compute; discriminate).
  assert (Hf0 : hd false (faults (world s)) = false) by (vm_compute; reflexivity).
  assert (Hf1 : nth 1 (faults (world s)) false = false) by (vm_compute; reflexivity).
  assert (Hq : Firestore.queryRoomsWhereName (trim (newRoomName (sidebar s)))
                 (store (world s)) = []) by (vm_compute; reflexivity).
  assert (Hm : isModalOpen (sidebar s) = true) by (vm_compute; reflexivity).
  destruct (create_fresh_name s Ht Hf0 Hf1 Hq) as (_ & _ & H1 & H2 & _).
  exact (conj (conj Ht (conj Hf0 (conj Hf1 Hq))) (conj Hm (conj H1 H2))).
Defined.

Lemma create_duplicate_keeps_dialog_witness :
  let s := Example.demoAgain in
  let d := {| Firestore.room_id := lit "doc0"; Firestore.room_name := lit "Demo";
              Firestore.room_createdAt := 2%Z;
              Firestore.room_createdBy := Some (lit "u1") |} in
  (trim (newRoomName (sidebar s)) <> []
   /\ hd false (faults (world s)) = false
   /\ In d (Firestore.rooms (store (world s)))
   /\ Firestore.room_name d = trim (newRoomName (sidebar s)))
  /\ store (world (exec Sidebar.handleCreateRoom s)) = store (world s)
  /\ errorMessage (sidebar (exec Sidebar.handleCreateRoom s)) = Strings.duplicate_name.
Proof.
  cbv zeta. set (s := Example.demoAgain).
  set (d := {| Firestore.room_id := lit "doc0"; Firestore.room_name := lit "Demo";
               Firestore.room_createdAt := 2%Z;
               Firestore.room_createdBy := Some (lit "u1") |}).
  assert (Ht : trim (newRoomName (sidebar s)) <> []) by (vm_compute; discriminate).
  assert (Hf : hd false (faults (world s)) = false) by (vm_compute; reflexivity).
  assert (Hin : In d (Firestore.rooms (store (world s)))) by (vm_compute; now left).
  assert (Hn : Firestore.room_name d = trim (newRoomName (sidebar s)))
    by (vm_compute; reflexivity).
  destruct (create_duplicate_keeps_dialog s d Ht Hf Hin Hn) as (_ & H1 & _ & H2 & _).
  exact (conj (conj Ht (conj Hf (conj Hin Hn))) (conj H1 H2)).
Defined.

Lemma create_store_failure_witness :
  let s := Session.naming (lit "Demo") [true] in
  (trim (newRoomName (sidebar s)) <> [] /\ hd false (faults (world s)) = true)
  /\ store (world (exec Sidebar.handleCreateRoom s)) = store (world s)
  /\ errorMessage (sidebar (exec Sidebar.handleCreateRoom s)) = Strings.create_failed.
Proof.
  cbv zeta. set (s := Session.naming (lit "Demo") [true]).
  assert (Ht : trim (newRoomName (sidebar s)) <> []) by (vm_compute; discriminate).
  assert (Hf : hd false (faults (world s)) = true) by (vm_compute; reflexivity).
  destruct (create_store_failure s Ht (or_introl Hf)) as (_ & H1 & H2 & _).
  exact (conj (conj Ht Hf) (conj H1 H2)).
Defined.

Lemma create_keeps_names_distinct_witness :
  let s := Example.demoAgain in
  (trim (newRoomName (sidebar s)) = newRoomName (sidebar s)
   /\ NoDup (map Firestore.room_name (Firestore.rooms (store (world s)))))
  /\ NoDup (map Firestore.room_name
              (Firestore.rooms (store (world (exec Sidebar.handleCreateRoom s))))).
Proof.
  cbv zeta. set (s := Example.demoAgain).
  assert (Ht : trim (newRoomName (sidebar s)) = newRoomName (sidebar s))
    by (vm_compute; reflexivity).
  assert (Hn : NoDup (map Firestore.room_name (Firestore.rooms (store (world s))))).
  { vm_compute. constructor; [intros []|constructor]. }
  exact (conj (conj Ht Hn) (create_keeps_names_distinct s Ht Hn)).
Defined.

Lemma delete_removes_only_that_room_witness :
  let s := Example.selected false in
  hd false (faults (world s)) = false
  /\ Firestore.massages (store (world (exec (Sidebar.handleDeleteRoom (lit "doc0") true) s)))
     = Firestore.massages (store (world s)).
Proof.
  cbv zeta. set (s := Example.selected false).
  assert (Hf : hd false (faults (world s)) = false) by (vm_compute; reflexivity).
  destruct (delete_removes_only_that_room s (lit "doc0") Hf) as (_ & _ & H).
  exact (conj Hf H).
Defined.

Lemma delete_selected_room_closes_stream_witness :
  let s := Example.selected false in
  let r := Room.mk (lit "doc0") (lit "Demo") 2%Z in
  (Subscribed s 1 (Room.id r)
   /\ nth_error (rooms (sidebar s)) 0 = Some r
   /\ hd false (faults (world s)) = false)
  /\ selectedRoom (context (react (DeleteClicked 0 true) s)) = None
  /\ messages (chat (react (DeleteClicked 0 true) s)) = [].
Proof.
  cbv zeta. set (s := Example.selected false).
  set (r := Room.mk (lit "doc0") (lit "Demo") 2%Z).
  assert (Hs : Subscribed s 1 (Room.id r)).
  { unfold Subscribed.
    refine (conj _ (conj _ (conj _ (conj _ _)))); vm_compute; reflexivity. }
  assert (Hn : nth_error (rooms (sidebar s)) 0 = Some r) by (vm_compute; reflexivity).
  assert (Hf : hd false (faults (world s)) = false) by (vm_compute; reflexivity).
  destruct (@delete_selected_room_closes_stream s 1%N 0%nat r Hs Hn Hf) as (H1 & _ & _ & _ & H2).
  exact (conj (conj Hs (conj Hn Hf)) (conj H1 H2)).
Defined.

Lemma listeners_are_the_held_ones_witness :
  let w := newWorld [] [] in
  let s := run Session.twoRooms (mount w) in
  listeners w = []
  /\ List.length (listeners (world s)) = 2%nat
  /\ listeners (world s)
     = held (sidebarCleanup (sidebar s)) RoomsDesc
       ++ held (chatCleanup (chat s)) (MassagesAsc (nonNull (selectedRoom (context s)))).
Proof.
  cbv zeta.
  assert (Hl : listeners (newWorld [] []) = []) by reflexivity.
  assert (H2 : List.length (listeners (world (run Session.twoRooms (mount (newWorld [] [])))))
               = 2%nat) by (vm_compute; reflexivity).
  destruct (listeners_are_the_held_ones Session.twoRooms (newWorld [] []) Hl) as (H & _).
  exact (conj Hl (conj H2 H)).
Defined.

Lemma stream_subscribed_iff_selected_witness :
  let w := newWorld [] [] in
  let s := run Session.twoRooms (mount w) in
  listeners w = []
  /\ holds (chatCleanup (chat s)) = true
  /\ holds (chatCleanup (chat s))
     = identified (context s) && truthy_str (selectedRoom (context s)).
Proof.
  cbv zeta.
  assert (Hl : listeners (newWorld [] []) = []) by reflexivity.
  assert (H2 : holds (chatCleanup (chat (run Session.twoRooms (mount (newWorld [] [])))))
               = true) by (vm_compute; reflexivity).
  destruct (stream_subscribed_iff_selected Session.twoRooms (newWorld [] []) Hl) as (H & _).
  exact (conj Hl (conj H2 H)).
Defined.

Lemma served_view_is_of_selected_room_witness :
  let w := newWorld [] [] in
  let s := run Session.twoRooms (mount w) in
  listeners w = []
  /\ (messages (chat (react (SnapshotArrives 1) s)) = messages (chat s)
      \/ (truthy_str (selectedRoom (context s)) = true
          /\ messages (chat (react (SnapshotArrives 1) s))
             = map viewOf (Firestore.queryMassagesAsc (nonNull (selectedRoom (context s)))
                             (store (world s))))).
Proof.
  cbv zeta.
  assert (Hl : listeners (newWorld [] []) = []) by reflexivity.
  exact (conj Hl (served_view_is_of_selected_room Session.twoRooms (newWorld [] []) 1 Hl)).
Defined.

Lemma room_switch_resubscribes_witness :
  let w := newWorld [] [] in
  let s := run Session.twoRooms (mount w) in
  let r' := Room.mk (lit "doc0") (lit "A") 2%Z in
  (listeners w = []
   /\ identified (context s) = true
   /\ nth_error (rooms (sidebar s)) 1 = Some r'
   /\ truthy_str (Some (Room.id r')) = true
   /\ selectedRoom (context s) = Some (lit "doc1"))
  /\ selectedRoom (context (react (RoomClicked 1) s)) = Some (Room.id r')
  /\ chatCleanup (chat (react (RoomClicked 1) s)) = Some (nextHandle (world s))
  /\ messages (chat (react (RoomClicked 1) s)) = messages (chat s).
Proof.
  cbv zeta. set (w := newWorld [] []). set (r' := Room.mk (lit "doc0") (lit "A") 2%Z).
  assert (Hl : listeners w = []) by reflexivity.
  assert (Hi : identified (context (run Session.twoRooms (mount w))) = true)
    by (vm_compute; reflexivity).
  assert (Hn : nth_error (rooms (sidebar (run Session.twoRooms (mount w)))) 1 = Some r')
    by (vm_compute; reflexivity).
  assert (Ht : truthy_str (Some (Room.id r')) = true) by (vm_compute; reflexivity).
  assert (Hs : selectedRoom (context (run Session.twoRooms (mount w))) = Some (lit "doc1"))
    by (vm_compute; reflexivity).
  assert (Hd : selectedRoom (context (run Session.twoRooms (mount w))) <> Some (Room.id r')).
  { rewrite Hs. vm_compute. discriminate. }
  destruct (room_switch_resubscribes Session.twoRooms w 1 Hl Hi Hn Ht Hd)
    as (H1 & _ & H3 & _ & H5).
  exact (conj (conj Hl (conj Hi (conj Hn (conj Ht Hs)))) (conj H1 (conj H3 H5))).
Defined.

Lemma late_snapshot_after_sign_out_witness :
  let s := Example.answered in
  Subscribed s 1 (lit "doc0")
  /\ react (SnapshotArrives 1) (react (AuthStateChanged None) s)
     = react (AuthStateChanged None) s
  /\ messages (chat (react (SnapshotArrives 1) (react (AuthStateChanged None) s))) = [].
Proof.
  cbv zeta.
  assert (Hs : Subscribed Example.answered 1 (lit "doc0")).
  { unfold Subscribed.
    refine (conj _ (conj _ (conj _ (conj _ _)))); vm_compute; reflexivity. }
  exact (conj Hs (late_snapshot_after_sign_out Hs)).
Defined.

Lemma snapshot_replaces_room_list_witness :
  let s := Example.answered in
  let l := {| handle := 0; target := RoomsDesc |} in
  (listenerOf 0 s = Some l /\ target l = RoomsDesc)
  /\ List.length (rooms (sidebar (react (SnapshotArrives 0) s)))
     = List.length (Firestore.rooms (store (world s)))
  /\ chat (react (SnapshotArrives 0) s) = chat s.
Proof.
  cbv zeta. set (l := {| handle := 0; target := RoomsDesc |}).
  assert (Hl : listenerOf 0 Example.answered = Some l) by (vm_compute; reflexivity).
  assert (Ht : target l = RoomsDesc) by reflexivity.
  destruct (snapshot_replaces_room_list Example.answered 0 Hl Ht) as (H1 & _ & _ & _ & H5 & _).
  exact (conj (conj Hl Ht) (conj H1 H5)).
Defined.

Lemma created_room_is_listed_witness :
  let s := Session.naming (lit " Demo ") [] in
  let l := {| handle := 0; target := RoomsDesc |} in
  (listenerOf 0 s = Some l
   /\ target l = RoomsDesc
   /\ trim (newRoomName (sidebar s)) <> []
   /\ hd false (faults (world s)) = false
   /\ nth 1 (faults (world s)) false = false
   /\ Firestore.queryRoomsWhereName (trim (newRoomName (sidebar s))) (store (world s)) = [])
  /\ In (lit " Demo ")
        (map Room.name (rooms (sidebar (run [CreateClicked; SnapshotArrives 0] s)))).
Proof.
  cbv zeta. set (s := Session.naming (lit " Demo ") []).
  set (l := {| handle := 0; target := RoomsDesc |}).
  assert (Hl : listenerOf 0 s = Some l) by (vm_compute; reflexivity).
  assert (Ht : target l = RoomsDesc) by reflexivity.
  assert (Hn : trim (newRoomName (sidebar s)) <> []) by (vm_compute; discriminate).
  assert (Hf0 : hd false (faults (world s)) = false) by (vm_compute; reflexivity).
  assert (Hf1 : nth 1 (faults (world s)) false = false) by (vm_compute; reflexivity).
  assert (Hq : Firestore.queryRoomsWhereName (trim (newRoomName (sidebar s)))
                 (store (world s)) = []) by (vm_compute; reflexivity).
  assert (Hname : newRoomName (sidebar s) = lit " Demo ") by (vm_compute; reflexivity).
  destruct (created_room_is_listed s 0 Hl Ht Hn Hf0 Hf1 Hq) as (H1 & _).
  rewrite Hname in H1.
  exact (conj (conj Hl (conj Ht (conj Hn (conj Hf0 (conj Hf1 Hq))))) H1).
Defined.


Lemma send_requests_in_order_witness :
  let s := Example.completionDown in
  Chat.refuses s = false
  /\ exists tail,
       issued (world (exec Chat.sendMessage s))
       = issued (world s)
         ++ AddMassage (nonNull (selectedRoom (context s)))
              (JStr (inputMessage (chat s))) user_sender :: tail
       /\ (tail = []
           \/ tail = [PostApiChat (inputMessage (chat s));
                      AddMassage (nonNull (selectedRoom (context s)))
                        (JStr Strings.apology) bot_sender]
           \/ (exists v, tail = [PostApiChat (inputMessage (chat s));
                                 AddMassage (nonNull (selectedRoom (context s))) v bot_sender])
           \/ (exists v, tail = [PostApiChat (inputMessage (chat s));
                                 AddMassage (nonNull (selectedRoom (context s))) v bot_sender;
                                 AddMassage (nonNull (selectedRoom (context s)))
                                   (JStr Strings.apology) bot_sender])).
Proof.
  cbv zeta.
  assert (H1 : Chat.refuses Example.completionDown = false) by (vm_compute; reflexivity).
  exact (conj H1 (send_requests_in_order Example.completionDown H1)).
Defined.

Lemma send_through_the_route_witness :
  let s := Session.throughRoute in
  let sv := Session.server (Some (lit "hi")) in
  (Chat.refuses s = false
   /\ replies (world s) = [endpoint sv (inputMessage (chat s))]
   /\ hd false (faults (world s)) = false
   /\ nth 1 (faults (world s)) false = false)
  /\ map Firestore.massage_text (Firestore.massages (store (world (exec Chat.sendMessage s))))
     = [JStr (lit "hello"); JStr (lit "hi")]
  /\ exists resp, fst (Route.POST (requestOf (inputMessage (chat s))) sv) = Fulfilled resp.
Proof.
  cbv zeta. set (s := Session.throughRoute). set (sv := Session.server (Some (lit "hi"))).
  assert (H1 : Chat.refuses s = false) by (vm_compute; reflexivity).
  assert (H2 : replies (world s) = [endpoint sv (inputMessage (chat s))])
    by (vm_compute; reflexivity).
  assert (H3 : hd false (faults (world s)) = false) by (vm_compute; reflexivity).
  assert (H4 : nth 1 (faults (world s)) false = false) by (vm_compute; reflexivity).
  assert (H5 : map Firestore.massage_text
                 (Firestore.massages (store (world (exec Chat.sendMessage s))))
               = [JStr (lit "hello"); JStr (lit "hi")]) by (vm_compute; reflexivity).
  destruct (send_through_the_route s sv H1 H2 H3 H4) as (resp & H & _).
  exact (conj (conj H1 (conj H2 (conj H3 H4))) (conj H5 (ex_intro _ resp H))).
Defined.

Lemma accepted_address_facts_witness :
  let s := lit "a@b.co" in
  Pattern.test Pattern.email s = true
  /\ count_occ N.eq_dec s 64%N = 1%nat
  /\ (6 <= List.length s)%nat.
Proof.
  cbv zeta.
  assert (H : Pattern.test Pattern.email (lit "a@b.co") = true) by (vm_compute; reflexivity).
  destruct (accepted_address_facts (lit "a@b.co") H) as (H1 & H2 & _).
  exact (conj H (conj H1 H2)).
Defined.
